(** * j12dump: serial transport and command decoder

    A shallow embedding of [j12dump.c].  The program keeps four file-scope
    variables ([fd], [settings], [exp], [btn]) and talks to the serial
    driver through [ioctl], [read], [write], [tcflush] and [tcdrain].  The
    variables and the driver are gathered in one [state] that every
    function threads explicitly; the answers of the driver are taken from
    scripts held in the state, one entry per system call.  [SerialOpen],
    [SerialClose] and the start-up of [main] are not part of the embedding:
    the properties below start from a state in which [fd] is either a
    descriptor or still negative. *)

From Stdlib Require Import ZArith Lia String Ascii.
From stdpp Require Import base list.

Local Open Scope Z_scope.

(** ** Return codes (the [#define]s at the top of the file) *)

Definition SERIAL_OK : Z := 0.
Definition SERIAL_ERR : Z := -1.
Definition SERIAL_ERR_OPEN : Z := -2.
Definition SERIAL_ERR_READ : Z := -3.
Definition SERIAL_ERR_WRITE : Z := -4.
Definition SERIAL_ERR_INIT : Z := -5.
Definition SERIAL_ERR_TIMEOUT : Z := -6.

(** ** Constants of <asm/termios.h> and <errno.h>

    Values of the Linux generic ABI (asm-generic/termbits.h), which the
    source includes; the octal originals are given alongside. *)

Module Termbits.
Definition CS5 : Z := 0.            (* 0000000 *)
Definition CS6 : Z := 16.           (* 0000020 *)
Definition CS7 : Z := 32.           (* 0000040 *)
Definition CS8 : Z := 48.           (* 0000060 *)
Definition CSTOPB : Z := 64.        (* 0000100 *)
Definition CREAD : Z := 128.        (* 0000200 *)
Definition PARENB : Z := 256.       (* 0000400 *)
Definition PARODD : Z := 512.       (* 0001000 *)
Definition CLOCAL : Z := 2048.      (* 0004000 *)
Definition CBAUD : Z := 4111.       (* 0010017 *)
Definition BOTHER : Z := 4096.      (* 0010000 *)
Definition CRTSCTS : Z := 2147483648. (* 020000000000 *)
Definition B300 : Z := 7.
Definition B2400 : Z := 11.
Definition B4800 : Z := 12.
Definition B9600 : Z := 13.
Definition B19200 : Z := 14.
Definition B38400 : Z := 15.
Definition B57600 : Z := 4097.      (* 0010001 *)
Definition B115200 : Z := 4098.     (* 0010002 *)
Definition IGNPAR : Z := 4.
Definition VTIME : nat := 5.
Definition VMIN : nat := 6.
Definition NCCS : nat := 19.
Definition EINTR : Z := 4.
End Termbits.
Import Termbits.

(** ** Machine integers

    [int] and [unsigned int] are 32 bits wide, [cc_t] is an unsigned char.
    The conversions are written out where the source stores a value into a
    narrower or unsigned object. *)

Definition to_int (z : Z) : Z := (z + 2 ^ 31) mod 2 ^ 32 - 2 ^ 31.
Definition to_uint (z : Z) : Z := z mod 2 ^ 32.
Definition to_cc (z : Z) : Z := z mod 256.

(** ** Data *)

(** [struct termios2]. *)
Record termios2 := Termios2 {
  c_iflag : Z;
  c_oflag : Z;
  c_cflag : Z;
  c_lflag : Z;
  c_line : Z;
  c_cc : list Z;
  c_ispeed : Z;
  c_ospeed : Z
}.

Definition set_cc (i : nat) (v : Z) (t : termios2) : termios2 :=
  Termios2 (c_iflag t) (c_oflag t) (c_cflag t) (c_lflag t) (c_line t)
           (<[i := v]> (c_cc t)) (c_ispeed t) (c_ospeed t).

(** One answer of the driver to [read]: the bytes it hands over (none is a
    return value of 0), or a failure with its [errno]. *)
Inductive read_result :=
| RdData (bs : list Z)
| RdFail (errno : Z).

(** One answer of the driver to [write]: how many bytes it is ready to
    take, or a failure with its [errno]. *)
Inductive write_result :=
| WrAccept (n : nat)
| WrFail (errno : Z).

(** What the program prints. *)
Inductive output :=
| OutCmdError (err : Z)
| OutPedalError (err pedal : Z)
| OutRender (cmd : Z) (pedals : list (list Z)) (buttons : list Z).

Record state := State {
  (* file-scope variables of the program *)
  fd : Z;
  settings : termios2;
  exp : list (list Z);
  btn : list Z;
  (* the serial driver *)
  drv : termios2;              (* configuration held by the driver *)
  io_script : list bool;       (* does the next ioctl succeed *)
  rd_script : list read_result;
  wr_script : list write_result;
  wire : list Z;               (* bytes handed to the driver so far *)
  flushes : nat;               (* calls of tcflush *)
  drains : nat;                (* calls of tcdrain *)
  (* standard output *)
  console : list output
}.

Definition with_settings (t : termios2) (s : state) : state :=
  State (fd s) t (exp s) (btn s) (drv s) (io_script s) (rd_script s)
        (wr_script s) (wire s) (flushes s) (drains s) (console s).
Definition with_exp (e : list (list Z)) (s : state) : state :=
  State (fd s) (settings s) e (btn s) (drv s) (io_script s) (rd_script s)
        (wr_script s) (wire s) (flushes s) (drains s) (console s).
Definition with_btn (b : list Z) (s : state) : state :=
  State (fd s) (settings s) (exp s) b (drv s) (io_script s) (rd_script s)
        (wr_script s) (wire s) (flushes s) (drains s) (console s).
Definition with_drv (t : termios2) (s : state) : state :=
  State (fd s) (settings s) (exp s) (btn s) t (io_script s) (rd_script s)
        (wr_script s) (wire s) (flushes s) (drains s) (console s).
Definition with_io_script (l : list bool) (s : state) : state :=
  State (fd s) (settings s) (exp s) (btn s) (drv s) l (rd_script s)
        (wr_script s) (wire s) (flushes s) (drains s) (console s).
Definition with_rd_script (l : list read_result) (s : state) : state :=
  State (fd s) (settings s) (exp s) (btn s) (drv s) (io_script s) l
        (wr_script s) (wire s) (flushes s) (drains s) (console s).
Definition with_wr (l : list write_result) (w : list Z) (s : state) : state :=
  State (fd s) (settings s) (exp s) (btn s) (drv s) (io_script s) (rd_script s)
        l w (flushes s) (drains s) (console s).
Definition with_flushes (n : nat) (s : state) : state :=
  State (fd s) (settings s) (exp s) (btn s) (drv s) (io_script s) (rd_script s)
        (wr_script s) (wire s) n (drains s) (console s).
Definition with_drains (n : nat) (s : state) : state :=
  State (fd s) (settings s) (exp s) (btn s) (drv s) (io_script s) (rd_script s)
        (wr_script s) (wire s) (flushes s) n (console s).
Definition print (o : output) (s : state) : state :=
  State (fd s) (settings s) (exp s) (btn s) (drv s) (io_script s) (rd_script s)
        (wr_script s) (wire s) (flushes s) (drains s) (console s ++ [o]).

(** ** Outcomes

    A call either returns with a value and a new state, or asks the driver
    for an answer the script does not hold ([Starved]), or performs an
    access C leaves undefined. *)

Inductive fault :=
| ExpOutOfBounds (index : Z)   (* access outside [exp] *)
| BtnOutOfBounds (index : Z).  (* store outside [btn] *)

Inductive result (A : Type) :=
| Done (a : A) (s : state)
| Starved
| Undefined (f : fault).
Arguments Done {A} a s.
Arguments Starved {A}.
Arguments Undefined {A} f.

Definition M (A : Type) : Type := state -> result A.

Definition ret {A} (a : A) : M A := fun s => Done a s.
Definition bind {A B} (m : M A) (k : A -> M B) : M B :=
  fun s => match m s with
           | Done a s' => k a s'
           | Starved => Starved
           | Undefined f => Undefined f
           end.

Notation "'let!' x ':=' m 'in' k" := (bind m (fun x => k))
  (at level 10, x name, m at level 100, k at level 200).
Notation "m ';;;' k" := (bind m (fun _ => k))
  (at level 100, k at level 200, right associativity).

(** ** The driver *)

Inductive request := TCGETS2 | TCSETS2.

(** [ioctl(fd, req, &settings)].  On a descriptor that is not open the
    kernel fails the call at once (EBADF); otherwise the script decides.
    A successful TCSETS2 hands [settings] to the driver, a successful
    TCGETS2 copies the driver's configuration into [settings]. *)
Definition ioctl (r : request) : M Z := fun s =>
  if fd s <? 0 then Done (-1) s
  else match io_script s with
       | [] => Starved
       | false :: ios => Done (-1) (with_io_script ios s)
       | true :: ios =>
           Done 0 (with_io_script ios
                     match r with
                     | TCSETS2 => with_drv (settings s) s
                     | TCGETS2 => with_settings (drv s) s
                     end)
       end.

Definition tcflush : M unit := fun s => Done tt (with_flushes (S (flushes s)) s).
Definition tcdrain : M unit := fun s => Done tt (with_drains (S (drains s)) s).

(** ** Transport *)

Definition SerialFlush : M Z := fun s =>
  if fd s <? 0 then Done SERIAL_ERR s
  else (tcflush ;;; ret SERIAL_OK) s.

Definition SerialDrain : M Z := fun s =>
  if fd s <? 0 then Done SERIAL_ERR s
  else (tcdrain ;;; ret SERIAL_OK) s.

Definition SerialSetTimeout (ms : Z) : M Z := fun s =>
  let t := settings s in
  let t :=
    if ms <? 0 then set_cc VTIME 0 (set_cc VMIN 0 t)
    else set_cc VTIME (to_cc (Z.quot (to_int (ms + 99)) 100))
           (set_cc VMIN (if ms =? 0 then 1 else 0) t) in
  (let! r := ioctl TCSETS2 in
   if r =? 0 then ret SERIAL_OK else ret SERIAL_ERR_INIT) (with_settings t s).

(** *** SerialInit *)

Definition char_at (f : string) (i : nat) : ascii :=
  match String.get i f with
  | Some c => c
  | None => "000"%char
  end.

(** The four [switch] statements of [SerialInit]; [None] is the
    [default: return (SERIAL_ERR_INIT)] branch. *)
Definition datasize (c : ascii) (cflags : Z) : option Z :=
  match c with
  | "5"%char => Some (Z.lor cflags CS5)
  | "6"%char => Some (Z.lor cflags CS6)
  | "7"%char => Some (Z.lor cflags CS7)
  | "8"%char => Some (Z.lor cflags CS8)
  | _ => None
  end.

Definition parity (c : ascii) (cflags : Z) : option Z :=
  match c with
  | "N"%char => Some cflags
  | "O"%char => Some (Z.lor (Z.lor cflags PARODD) PARENB)  (* falls through *)
  | "E"%char => Some (Z.lor cflags PARENB)
  | _ => None
  end.

Definition stopbit (c : ascii) (cflags : Z) : option Z :=
  match c with
  | "1"%char => Some cflags
  | "2"%char => Some (Z.lor cflags CSTOPB)
  | _ => None
  end.

Definition baudrate (baud : Z) (cflags speed : Z) : Z * Z :=
  if baud =? 115200 then (Z.lor cflags B115200, speed)
  else if baud =? 57600 then (Z.lor cflags B57600, speed)
  else if baud =? 38400 then (Z.lor cflags B38400, speed)
  else if baud =? 19200 then (Z.lor cflags B19200, speed)
  else if baud =? 9600 then (Z.lor cflags B9600, speed)
  else if baud =? 4800 then (Z.lor cflags B4800, speed)
  else if baud =? 2400 then (Z.lor cflags B2400, speed)
  else if baud =? 300 then (Z.lor cflags B300, speed)
  else (Z.lor (Z.ldiff cflags CBAUD) BOTHER, to_uint baud).

(** [format] is a C string or NULL; the string holds the characters before
    the terminator, so [strlen] is its length. *)
Definition SerialInit (baud : Z) (format : option string) (rtscts : Z) : M Z :=
  fun s =>
  let cflags := c_cflag (settings s) in
  let speed := 0 in
  if fd s <? 0 then Done SERIAL_ERR_INIT s else
  match format with
  | None => Done SERIAL_ERR_INIT s
  | Some f =>
    if negb (String.length f =? 3)%nat then Done SERIAL_ERR_INIT s else
    let cflags := Z.lor cflags (Z.lor CLOCAL CREAD) in
    match datasize (char_at f 0) cflags with
    | None => Done SERIAL_ERR_INIT s
    | Some cflags =>
    match parity (char_at f 1) cflags with
    | None => Done SERIAL_ERR_INIT s
    | Some cflags =>
    match stopbit (char_at f 2) cflags with
    | None => Done SERIAL_ERR_INIT s
    | Some cflags =>
      let '(cflags, speed) := baudrate baud cflags speed in
      let cflags := if rtscts =? 0 then cflags else Z.lor cflags CRTSCTS in
      let t := settings s in
      let t := Termios2 IGNPAR (c_oflag t) cflags (c_lflag t) (c_line t)
                        (c_cc t) speed speed in
      let t := set_cc VTIME 0 (set_cc VMIN 0 t) in
      (let! r := ioctl TCSETS2 in
       if negb (r =? 0) then ret SERIAL_ERR_INIT else
       let! r := ioctl TCGETS2 in
       if negb (r =? 0) then ret SERIAL_ERR_INIT else
       SerialFlush ;;;
       ret SERIAL_OK) (with_settings t s)
    end end end
  end.

(** *** SerialSendBuffer

    The [while (len > 0)] loop, by recursion on the answers of the driver.
    [buf] is the unsent remainder ([buf] and [len] of the source move
    together), [sent] what the driver has taken.  [write] never takes more
    than it is offered. *)
Fixpoint send_loop (ws : list write_result) (buf sent : list Z)
  : option (Z * list write_result * list Z) :=
  match buf with
  | [] => Some (SERIAL_OK, ws, sent)
  | _ :: _ =>
    match ws with
    | [] => None
    | WrFail e :: ws' =>
        if e =? EINTR then send_loop ws' buf sent
        else Some (SERIAL_ERR_WRITE, ws', sent)
    | WrAccept n :: ws' =>
        send_loop ws' (drop n buf) (sent ++ take n buf)
    end
  end.

Definition SerialSendBuffer (buf : list Z) : M Z := fun s =>
  if fd s <? 0 then Done SERIAL_ERR_WRITE s else
  match send_loop (wr_script s) buf (wire s) with
  | None => Starved
  | Some (r, ws, sent) => Done r (with_wr ws sent s)
  end.

Definition SerialSendByte (b : Z) : M Z := SerialSendBuffer [b].

(** *** SerialReceiveBuffer

    The [while ( *len > 0)] loop.  [filled] is the memory behind the moving
    [buf] pointer, that is, the bytes stored from the caller's address
    onwards; [len] and [length] are the variables of the source.  [read]
    never returns more than the [len] bytes it is asked for. *)
Fixpoint recv_loop (timeout : Z) (rs : list read_result) (filled : list Z)
    (len length : nat) : option (Z * list read_result * list Z * nat) :=
  match len with
  | O => Some (SERIAL_OK, rs, filled, length)
  | S _ =>
    match rs with
    | [] => None
    | RdFail e :: rs' =>
        if e =? EINTR then recv_loop timeout rs' filled len length
        else Some (SERIAL_ERR_READ, rs', filled, length)
    | RdData bs :: rs' =>
        let got := take len bs in
        let received := List.length got in
        match received with
        | O => Some (if timeout <? 0 then SERIAL_OK else SERIAL_ERR_TIMEOUT,
                     rs', filled, length)
        | S _ => recv_loop timeout rs' (filled ++ got) (len - received)%nat
                           (length + received)%nat
        end
    end
  end.

(** The result carries the return code, the bytes stored at [buf] and the
    final value of [*len]. *)
Definition SerialReceiveBuffer (len : nat) (timeout : Z) : M (Z * list Z * nat) :=
  fun s =>
  if fd s <? 0 then Done (SERIAL_ERR_READ, [], len) s else
  (SerialSetTimeout timeout ;;;
   fun s =>
   match recv_loop timeout (rd_script s) [] len 0 with
   | None => Starved
   | Some (r, rs, filled, length) => Done (r, filled, length) (with_rd_script rs s)
   end) s.

(** Storing [filled] at the start of an object whose bytes were [old]. *)
Definition stored (filled old : list Z) : list Z :=
  filled ++ drop (List.length filled) old.

Definition SerialReceiveByte (c : Z) (timeout : Z) : M (Z * Z) :=
  let! x := SerialReceiveBuffer 1 timeout in
  let '(r, filled, _) := x in
  ret (r, match stored filled [c] with b :: _ => b | [] => c end).

(** ** Command decoder *)

(** [exp] has two rows and [btn] twelve elements.  The source indexes both
    without a check, so the embedding has to say what an index outside the
    array means: it is the undefined access of C, reported as a [fault]. *)
Definition in_exp (pedal : Z) : bool := (0 <=? pedal) && (pedal <? 2).
Definition in_btn (button : Z) : bool := (0 <=? button) && (button <? 12).

(** [sleep] and [fflush] have no counterpart here; the message printed on
    an error is kept. *)
Definition ReadPedal (pedal : Z) : M unit :=
  if negb (in_exp pedal) then fun _ => Undefined (ExpOutOfBounds pedal) else
  let! x := SerialReceiveBuffer 2 0 in
  let '(err, filled, _) := x in
  fun s =>
  let s := with_exp (alter (stored filled) (Z.to_nat pedal) (exp s)) s in
  if err =? 0 then Done tt s
  else Done tt (print (OutPedalError err pedal) s).

Definition ReadButton (button : Z) : M unit := fun s =>
  if button =? 0x0F then Done tt (with_btn (replicate 12 0) s)
  else if in_btn button
       then Done tt (with_btn (<[Z.to_nat button := 1]> (btn s)) s)
       else Undefined (BtnOutOfBounds button).

(** The [switch (cmd & 0xF0)] of [main]. *)
Definition command_switch (cmd : Z) : M unit :=
  match Z.land cmd 0xF0 with
  | 0xE0 => ReadPedal (Z.land cmd 0x01)
  | 0xF0 => ReadButton (Z.land cmd 0x0F)
  | _ => ret tt
  end.

(** One turn of the [while (1)] loop of [main]; [cmd] is the local variable,
    which keeps its value when no byte arrives. *)
Definition main_iteration (cmd : Z) : M Z :=
  let! x := SerialReceiveByte cmd 1 in
  let '(err, cmd) := x in
  (if err =? 0 then ret tt
   else fun s => Done tt (print (OutCmdError err) s)) ;;;
  command_switch cmd ;;;
  fun s => Done cmd (print (OutRender cmd (exp s) (btn s)) s).

Fixpoint main_loop (turns : nat) (cmd : Z) : M Z :=
  match turns with
  | O => ret cmd
  | S n => let! cmd := main_iteration cmd in main_loop n cmd
  end.

(** A state to run examples on: port open on descriptor 3, everything
    zero, and the given scripts. *)
Definition blank_termios : termios2 :=
  Termios2 0 0 0 0 0 (replicate NCCS 0) 0 0.
Definition sample (ios : list bool) (rs : list read_result)
    (ws : list write_result) : state :=
  State 3 blank_termios [[0; 0]; [0; 0]] (replicate 12 0)
        blank_termios ios rs ws [] 0 0 [].
Definition unopened (s : state) : state :=
  State (-1) (settings s) (exp s) (btn s) (drv s) (io_script s) (rd_script s)
        (wr_script s) (wire s) (flushes s) (drains s) (console s).

(** ** Opening the port

    [open] is answered by the kernel with a descriptor or with -1; the
    answer is the argument [opened] (the device path matters to the kernel
    only).  The assignment to [fd] is made before the test, as in the
    source. *)
Definition with_fd (d : Z) (s : state) : state :=
  State d (settings s) (exp s) (btn s) (drv s) (io_script s) (rd_script s)
        (wr_script s) (wire s) (flushes s) (drains s) (console s).

Definition SerialOpen (opened : Z) : M Z := fun s =>
  let s := with_fd opened s in
  if fd s <? 0 then Done SERIAL_ERR_OPEN s else
  (let! r := ioctl TCGETS2 in
   if negb (r =? 0) then ret SERIAL_ERR_OPEN else ret SERIAL_OK) s.

(** ** Vocabulary of the statements *)

(** [v] is the number of whole deciseconds that cover [ms] milliseconds,
    rounded up. *)
Definition ceil_ds (ms v : Z) : Prop := 100 * (v - 1) < ms <= 100 * v.

(** [delivers rs bs]: the answers [rs] of the driver hand over the bytes
    [bs], in non-empty pieces, with any number of interruptions (EINTR)
    before a piece. *)
Inductive delivers : list read_result -> list Z -> Prop :=
| delivers_nil : delivers [] []
| delivers_eintr rs bs :
    bs <> [] -> delivers rs bs -> delivers (RdFail EINTR :: rs) bs
| delivers_data c rs bs :
    c <> [] -> delivers rs bs -> delivers (RdData c :: rs) (c ++ bs).

(** The formats the specification enumerates: a data-bits digit, a parity
    letter and a stop-bits digit, and nothing else. *)
Definition is_data (c : ascii) : bool :=
  Ascii.eqb c "5" || Ascii.eqb c "6" || Ascii.eqb c "7" || Ascii.eqb c "8".
Definition is_parity (c : ascii) : bool :=
  Ascii.eqb c "N" || Ascii.eqb c "O" || Ascii.eqb c "E".
Definition is_stop (c : ascii) : bool :=
  Ascii.eqb c "1" || Ascii.eqb c "2".
Definition supported_format (format : option string) : bool :=
  match format with
  | Some (String d (String p (String t EmptyString))) =>
      is_data d && is_parity p && is_stop t
  | _ => false
  end.

(** The arrays have the shape their declarations give them: twelve
    buttons, two pedal slots of two bytes. *)
Definition arrays_ok (s : state) : Prop :=
  List.length (btn s) = 12%nat /\
  List.length (exp s) = 2%nat /\
  Forall (fun row => List.length row = 2%nat) (exp s).

(** The rates [SerialInit] has a [case] for. *)
Definition named_baud (baud : Z) : option Z :=
  if baud =? 115200 then Some B115200
  else if baud =? 57600 then Some B57600
  else if baud =? 38400 then Some B38400
  else if baud =? 19200 then Some B19200
  else if baud =? 9600 then Some B9600
  else if baud =? 4800 then Some B4800
  else if baud =? 2400 then Some B2400
  else if baud =? 300 then Some B300
  else None.

(** The flags each character of the format stands for, and the flags a
    format asks for altogether. *)
Definition data_code (c : ascii) : Z :=
  if Ascii.eqb c "5" then CS5 else if Ascii.eqb c "6" then CS6
  else if Ascii.eqb c "7" then CS7 else if Ascii.eqb c "8" then CS8 else 0.
Definition parity_code (c : ascii) : Z :=
  if Ascii.eqb c "O" then Z.lor PARODD PARENB
  else if Ascii.eqb c "E" then PARENB else 0.
Definition stop_code (c : ascii) : Z :=
  if Ascii.eqb c "2" then CSTOPB else 0.
Definition format_bits (d p t : ascii) : Z :=
  Z.lor (Z.lor (Z.lor (Z.lor CLOCAL CREAD) (data_code d)) (parity_code p))
        (stop_code t).

(** * Properties *)

(** Settles the test [fd < 0] of the guarded operations on an open port. *)
Ltac open_guard :=
  match goal with
  | |- context [fd ?s <? 0] =>
      destruct (Z.ltb_spec (fd s) 0) as [?|_]; [lia|]
  end.

(** ** Timeout conversion *)

Lemma to_int_small (z : Z) : -2 ^ 31 <= z < 2 ^ 31 -> to_int z = z.
Proof.
  intros H. unfold to_int.
  rewrite Z.mod_small by lia. lia.
Qed.

Lemma timeout_units (ms : Z) :
  0 <= ms <= 25500 ->
  ceil_ds ms (to_cc (Z.quot (to_int (ms + 99)) 100)).
Proof.
  intros H. rewrite to_int_small by lia.
  rewrite Z.quot_div_nonneg by lia.
  assert (Hq : 0 <= (ms + 99) / 100 < 256).
  { split; [apply Z.div_pos; lia | apply Z.div_lt_upper_bound; lia]. }
  unfold to_cc. rewrite Z.mod_small by exact Hq.
  unfold ceil_ds.
  pose proof (Z.div_mod (ms + 99) 100 ltac:(lia)) as Hdm.
  pose proof (Z.mod_pos_bound (ms + 99) 100 ltac:(lia)) as Hb.
  lia.
Qed.

Lemma cc_after_set (t : termios2) (vmin vtime : Z) :
  List.length (c_cc t) = NCCS ->
  c_cc (set_cc VTIME vtime (set_cc VMIN vmin t)) !! VMIN = Some vmin /\
  c_cc (set_cc VTIME vtime (set_cc VMIN vmin t)) !! VTIME = Some vtime.
Proof.
  intros Hlen. simpl. split.
  - rewrite list_lookup_insert_ne by (unfold VTIME, VMIN; lia).
    apply list_lookup_insert_eq. rewrite Hlen. unfold VMIN, NCCS. lia.
  - apply list_lookup_insert_eq. rewrite length_insert, Hlen.
    unfold VTIME, NCCS. lia.
Qed.

(** What [SerialSetTimeout] leaves alone, whatever the driver answers. *)
Lemma SerialSetTimeout_frame (ms r : Z) (s s' : state) :
  SerialSetTimeout ms s = Done r s' ->
  fd s' = fd s /\ exp s' = exp s /\ btn s' = btn s /\
  rd_script s' = rd_script s /\ wr_script s' = wr_script s /\
  wire s' = wire s /\ console s' = console s /\
  flushes s' = flushes s /\ drains s' = drains s.
Proof.
  unfold SerialSetTimeout, bind, ioctl, ret. cbn [fd with_settings io_script].
  destruct (fd s <? 0).
  - destruct (-1 =? 0); intros [= <- <-]; cbn; tauto.
  - destruct (io_script s) as [|[] ios]; [discriminate | |].
    + destruct (0 =? 0); intros [= <- <-]; cbn; tauto.
    + destruct (-1 =? 0); intros [= <- <-]; cbn; tauto.
Qed.

(** On an open port [SerialSetTimeout] returns as soon as the driver has an
    answer for its one [ioctl]. *)
Lemma SerialSetTimeout_returns (ms : Z) (s : state) (ok : bool) (ios : list bool) :
  0 <= fd s -> io_script s = ok :: ios ->
  exists s', SerialSetTimeout ms s =
               Done (if ok then SERIAL_OK else SERIAL_ERR_INIT) s' /\
             io_script s' = ios.
Proof.
  intros Hfd Hio. unfold SerialSetTimeout, bind, ioctl, ret.
  cbn [fd with_settings io_script].
  open_guard.
  rewrite Hio. destruct ok; cbn; eexists; split; reflexivity.
Qed.

(** C1, as amended.  For a timeout of at most 25500 ms [SerialSetTimeout]
    stores VTIME = ceil(ms/100) deciseconds with VMIN = 0 when ms > 0;
    ms = 0 stores VMIN = 1 with VTIME = 0, not VMIN = 0; the pair VMIN = 0,
    VTIME = 0 is stored for a negative ms.  The values are stored in
    [settings] whatever the [ioctl] answers (also on a port that is not
    open), and they are the values the driver holds when the call returns
    SERIAL_OK.  On an open port the call returns as soon as the driver
    answers. *)
Theorem SerialSetTimeout_units (ms : Z) (s : state) :
  ms <= 25500 ->
  List.length (c_cc (settings s)) = NCCS ->
  (forall r s',
     SerialSetTimeout ms s = Done r s' ->
     exists vmin vtime,
       c_cc (settings s') !! VMIN = Some vmin /\
       c_cc (settings s') !! VTIME = Some vtime /\
       (ms < 0 -> vmin = 0 /\ vtime = 0) /\
       (ms = 0 -> vmin = 1 /\ vtime = 0) /\
       (0 < ms -> vmin = 0 /\ ceil_ds ms vtime) /\
       (r = SERIAL_OK -> drv s' = settings s')) /\
  (forall ok ios,
     0 <= fd s -> io_script s = ok :: ios ->
     exists s',
       SerialSetTimeout ms s =
         Done (if ok then SERIAL_OK else SERIAL_ERR_INIT) s') /\
  (fd s < 0 -> exists s', SerialSetTimeout ms s = Done SERIAL_ERR_INIT s').
Proof.
  intros Hms Hlen.
  set (vmin := if ms <? 0 then 0 else if ms =? 0 then 1 else 0).
  set (vtime := if ms <? 0 then 0 else to_cc (Z.quot (to_int (ms + 99)) 100)).
  assert (Hvals : (ms < 0 -> vmin = 0 /\ vtime = 0) /\
                  (ms = 0 -> vmin = 1 /\ vtime = 0) /\
                  (0 < ms -> vmin = 0 /\ ceil_ds ms vtime)).
  { unfold vmin, vtime. destruct (Z.ltb_spec ms 0) as [Hneg|Hpos].
    - repeat split; lia.
    - split; [lia|]. split.
      + intros ->. split; reflexivity.
      + intros H0. destruct (Z.eqb_spec ms 0); [lia|].
        split; [reflexivity | apply timeout_units; lia]. }
  assert (Hstore : forall r s',
            SerialSetTimeout ms s = Done r s' ->
            settings s' = set_cc VTIME vtime (set_cc VMIN vmin (settings s)) /\
            (r = SERIAL_OK -> drv s' = settings s')).
  { intros r s'. unfold SerialSetTimeout, bind, ioctl, ret, vmin, vtime.
    cbn [fd with_settings io_script settings].
    destruct (fd s <? 0).
    - destruct (ms <? 0); cbn; intros [= <- <-]; cbn; split;
        reflexivity || discriminate.
    - destruct (io_script s) as [|[] ios]; [discriminate | |].
      + destruct (ms <? 0); cbn; intros [= <- <-]; cbn; split; reflexivity.
      + destruct (ms <? 0); cbn; intros [= <- <-]; cbn; split;
          reflexivity || discriminate. }
  split; [|split].
  - intros r s' H. apply Hstore in H. destruct H as [Hset Hdrv].
    destruct (cc_after_set (settings s) vmin vtime Hlen) as [Hmin Htime].
    rewrite <- Hset in Hmin, Htime.
    destruct Hvals as (Hn & Hz & Hp).
    exists vmin, vtime.
    split; [exact Hmin|]. split; [exact Htime|].
    split; [exact Hn|]. split; [exact Hz|]. split; [exact Hp | exact Hdrv].
  - intros ok ios Hfd Hio.
    destruct (SerialSetTimeout_returns ms s ok ios Hfd Hio) as (s' & H & _).
    exists s'. exact H.
  - intros Hfd. unfold SerialSetTimeout, bind, ioctl, ret.
    cbn [fd with_settings].
    destruct (Z.ltb_spec (fd s) 0) as [_|]; [|lia].
    eexists. reflexivity.
Qed.

Lemma SerialSetTimeout_units_witness :
  (exists s',
     SerialSetTimeout 250 (sample [false] [] []) = Done SERIAL_ERR_INIT s' /\
     exists vmin vtime,
       c_cc (settings s') !! VMIN = Some vmin /\
       c_cc (settings s') !! VTIME = Some vtime /\
       (250 < 0 -> vmin = 0 /\ vtime = 0) /\
       (250 = 0 -> vmin = 1 /\ vtime = 0) /\
       (0 < 250 -> vmin = 0 /\ ceil_ds 250 vtime) /\
       (SERIAL_ERR_INIT = SERIAL_OK -> drv s' = settings s')) /\
  (exists s',
     SerialSetTimeout 250 (sample [true] [] []) =
       Done (if true then SERIAL_OK else SERIAL_ERR_INIT) s') /\
  (exists s',
     SerialSetTimeout 250 (unopened (sample [true] [] [])) =
       Done SERIAL_ERR_INIT s').
Proof.
  split; [|split].
  - eexists. split; [reflexivity|].
    apply (proj1 (SerialSetTimeout_units 250 (sample [false] [] [])
                    ltac:(lia) eq_refl) SERIAL_ERR_INIT).
    reflexivity.
  - apply (proj1 (proj2 (SerialSetTimeout_units 250 (sample [true] [] [])
                           ltac:(lia) eq_refl)) true []).
    + simpl. lia.
    + reflexivity.
  - apply (proj2 (proj2 (SerialSetTimeout_units 250 (unopened (sample [true] [] []))
                           ltac:(lia) eq_refl))).
    simpl. lia.
Defined.

(** C1 as stated fails at ms = 0: the call stores VMIN = 1, not VMIN = 0. *)
Lemma SerialSetTimeout_zero_VMIN_1 :
  exists s',
    SerialSetTimeout 0 (sample [true] [] []) = Done SERIAL_OK s' /\
    c_cc (settings s') !! VMIN = Some 1 /\
    c_cc (settings s') !! VTIME = Some 0 /\
    c_cc (settings s') !! VMIN <> Some 0.
Proof.
  eexists. split; [reflexivity|]. cbn. repeat split; congruence.
Qed.

(** Past 25500 ms the decisecond count no longer fits the [cc_t] slot. *)
Example SerialSetTimeout_25600_wraps :
  exists s',
    SerialSetTimeout 25600 (sample [true] [] []) = Done SERIAL_OK s' /\
    c_cc (settings s') !! VTIME = Some 0.
Proof. eexists. split; reflexivity. Qed.

(** ** Buttons *)

(** C2.  The command bytes 0xFC, 0xFD and 0xFE reach [ReadButton] with the
    index 12, 13 and 14, which is neither the clear value 0x0F nor an
    element of [btn]: the store [btn[button] = 1] falls outside the array
    instead of being skipped. *)
Theorem command_switch_button_12_14 (s : state) :
  command_switch 0xFC s = Undefined (BtnOutOfBounds 12) /\
  command_switch 0xFD s = Undefined (BtnOutOfBounds 13) /\
  command_switch 0xFE s = Undefined (BtnOutOfBounds 14).
Proof. repeat split. Qed.

(** The same through a whole turn of the loop, on the byte 0xFC. *)
Example main_iteration_0xFC :
  main_iteration 0 (sample [true] [RdData [0xFC]] []) =
  Undefined (BtnOutOfBounds 12).
Proof. reflexivity. Qed.

(** C8.  With the twelve flags in place, the command 0xF3 sets [btn[3]]
    and no other flag, and the command 0xFF that follows clears all
    twelve; nothing else in the state moves. *)
Theorem command_switch_0xF3_then_0xFF (s : state) :
  List.length (btn s) = 12%nat ->
  exists s1 s2,
    command_switch 0xF3 s = Done tt s1 /\
    btn s1 !! 3%nat = Some 1 /\
    (forall i : nat, i <> 3%nat -> btn s1 !! i = btn s !! i) /\
    List.length (btn s1) = 12%nat /\
    exp s1 = exp s /\
    command_switch 0xFF s1 = Done tt s2 /\
    (forall i : nat, (i < 12)%nat -> btn s2 !! i = Some 0) /\
    List.length (btn s2) = 12%nat /\
    exp s2 = exp s.
Proof.
  intros Hlen.
  exists (with_btn (<[3%nat := 1]> (btn s)) s).
  exists (with_btn (replicate 12 0) (with_btn (<[3%nat := 1]> (btn s)) s)).
  split; [reflexivity|]. cbn [btn with_btn exp].
  split; [apply list_lookup_insert_eq; lia|].
  split; [intros i Hi; apply list_lookup_insert_ne; congruence|].
  split; [rewrite length_insert; exact Hlen|].
  split; [reflexivity|].
  split; [reflexivity|].
  split; [intros i Hi; apply lookup_replicate_2; exact Hi|].
  split; [apply length_replicate | reflexivity].
Qed.

Lemma command_switch_0xF3_then_0xFF_witness :
  exists s1 s2,
    command_switch 0xF3 (sample [] [] []) = Done tt s1 /\
    btn s1 !! 3%nat = Some 1 /\
    (forall i : nat, i <> 3%nat -> btn s1 !! i = btn (sample [] [] []) !! i) /\
    List.length (btn s1) = 12%nat /\
    exp s1 = exp (sample [] [] []) /\
    command_switch 0xFF s1 = Done tt s2 /\
    (forall i : nat, (i < 12)%nat -> btn s2 !! i = Some 0) /\
    List.length (btn s2) = 12%nat /\
    exp s2 = exp (sample [] [] []).
Proof.
  apply (command_switch_0xF3_then_0xFF (sample [] [] [])).
  reflexivity.
Defined.

(** ** Calls on a port that was never opened *)

(** C10.  With [fd] negative, as it is before [SerialOpen] or after it
    failed, each of the five guarded operations returns its negative error
    code and leaves the whole state, driver included, as it was;
    [SerialReceiveBuffer] returns SERIAL_ERR_READ, stores nothing and
    leaves [*len] at the value passed in. *)
Theorem unopened_port_calls (s : state) :
  fd s < 0 ->
  SerialFlush s = Done SERIAL_ERR s /\
  SerialDrain s = Done SERIAL_ERR s /\
  (forall baud format rtscts,
     SerialInit baud format rtscts s = Done SERIAL_ERR_INIT s) /\
  (forall buf, SerialSendBuffer buf s = Done SERIAL_ERR_WRITE s) /\
  (forall len timeout,
     SerialReceiveBuffer len timeout s = Done (SERIAL_ERR_READ, [], len) s) /\
  SERIAL_ERR < 0 /\ SERIAL_ERR_INIT < 0 /\ SERIAL_ERR_WRITE < 0 /\
  SERIAL_ERR_READ < 0.
Proof.
  intros Hfd.
  assert (Hlt : (fd s <? 0) = true) by (apply Z.ltb_lt; exact Hfd).
  unfold SerialFlush, SerialDrain, SerialInit, SerialSendBuffer,
    SerialReceiveBuffer.
  rewrite Hlt. repeat split.
Qed.

Lemma unopened_port_calls_witness :
  SerialFlush (unopened (sample [true] [RdData [1]] [WrAccept 1])) =
    Done SERIAL_ERR (unopened (sample [true] [RdData [1]] [WrAccept 1])) /\
  SerialDrain (unopened (sample [true] [RdData [1]] [WrAccept 1])) =
    Done SERIAL_ERR (unopened (sample [true] [RdData [1]] [WrAccept 1])) /\
  (forall baud format rtscts,
     SerialInit baud format rtscts
       (unopened (sample [true] [RdData [1]] [WrAccept 1])) =
     Done SERIAL_ERR_INIT (unopened (sample [true] [RdData [1]] [WrAccept 1]))) /\
  (forall buf,
     SerialSendBuffer buf (unopened (sample [true] [RdData [1]] [WrAccept 1])) =
     Done SERIAL_ERR_WRITE (unopened (sample [true] [RdData [1]] [WrAccept 1]))) /\
  (forall len timeout,
     SerialReceiveBuffer len timeout
       (unopened (sample [true] [RdData [1]] [WrAccept 1])) =
     Done (SERIAL_ERR_READ, [], len)
       (unopened (sample [true] [RdData [1]] [WrAccept 1]))) /\
  SERIAL_ERR < 0 /\ SERIAL_ERR_INIT < 0 /\ SERIAL_ERR_WRITE < 0 /\
  SERIAL_ERR_READ < 0.
Proof.
  apply (unopened_port_calls (unopened (sample [true] [RdData [1]] [WrAccept 1]))).
  simpl. lia.
Defined.

(** ** The receive loop *)

Lemma recv_loop_done (timeout : Z) (rs : list read_result) (filled : list Z)
    (length : nat) :
  recv_loop timeout rs filled 0 length = Some (SERIAL_OK, rs, filled, length).
Proof. destruct rs; reflexivity. Qed.

(** Invariant of the loop: what it returns extends [filled] by at most
    [len] bytes, [length] has counted exactly those, and an error return
    means fewer than [len] were stored. *)
Lemma recv_loop_inv (timeout : Z) (rs : list read_result) :
  forall (filled : list Z) (len length : nat) r rs' filled' n,
    recv_loop timeout rs filled len length = Some (r, rs', filled', n) ->
    exists more,
      filled' = filled ++ more /\
      n = (length + List.length more)%nat /\
      (List.length more <= len)%nat /\
      (r <> SERIAL_OK -> (List.length more < len)%nat).
Proof.
  induction rs as [|a rs IH]; intros filled len length r rs' filled' n.
  - destruct len; cbn; [|discriminate].
    intros [= <- <- <- <-]. exists []. rewrite app_nil_r. cbn.
    repeat split; lia.
  - destruct len as [|k].
    { cbn. intros [= <- <- <- <-]. exists []. rewrite app_nil_r. cbn.
      repeat split; lia. }
    cbn [recv_loop]. destruct a as [bs|e].
    + destruct (take (S k) bs) as [|b got] eqn:Hgot.
      * cbn. intros [= <- <- <- <-]. exists []. rewrite app_nil_r. cbn.
        repeat split; lia.
      * cbn [List.length]. intros H. apply IH in H.
        destruct H as (more & -> & -> & Hle & Hlt).
        assert (Hb : (List.length (b :: got) <= S k)%nat).
        { rewrite <- Hgot, length_take. lia. }
        cbn [List.length] in Hb.
        exists ((b :: got) ++ more). rewrite app_assoc.
        split; [reflexivity|]. rewrite length_app. cbn [List.length].
        repeat split; lia.
    + destruct (e =? EINTR).
      * intros H. apply IH in H. exact H.
      * intros [= <- <- <- <-]. exists []. rewrite app_nil_r. cbn.
        repeat split; lia.
Qed.

(** Bytes delivered while the request is not yet exceeded are appended at
    the fill position, and the loop carries on with the remaining length:
    interruptions on the way change nothing. *)
Lemma recv_loop_delivers (timeout : Z) (pre : list read_result) (bs : list Z) :
  delivers pre bs ->
  forall rs filled (len length : nat),
    (List.length bs <= len)%nat ->
    recv_loop timeout (pre ++ rs) filled len length =
    recv_loop timeout rs (filled ++ bs) (len - List.length bs)
              (length + List.length bs).
Proof.
  induction 1 as [|pre bs Hne Hd IH|c pre bs Hne Hd IH];
    intros rs filled len length Hlen.
  - cbn. rewrite app_nil_r, Nat.sub_0_r, Nat.add_0_r. reflexivity.
  - destruct len as [|k].
    { destruct bs; [congruence | cbn in Hlen; lia]. }
    cbn [app recv_loop]. rewrite Z.eqb_refl. apply IH. exact Hlen.
  - rewrite length_app in Hlen.
    destruct len as [|k].
    { destruct c; [congruence | cbn in Hlen; lia]. }
    cbn [app recv_loop].
    rewrite take_ge by lia.
    destruct c as [|b c]; [congruence|].
    cbn [List.length].
    rewrite IH by (cbn [List.length] in Hlen; lia).
    rewrite <- app_assoc, length_app. cbn [List.length].
    f_equal; lia.
Qed.

(** The driver scripts other than [rd_script] decide [SerialSetTimeout]. *)
Lemma SerialSetTimeout_rd_script (ms : Z) (l : list read_result) (s : state) :
  SerialSetTimeout ms (with_rd_script l s) =
  match SerialSetTimeout ms s with
  | Done r s1 => Done r (with_rd_script l s1)
  | Starved => Starved
  | Undefined f => Undefined f
  end.
Proof.
  unfold SerialSetTimeout, bind, ioctl, ret.
  cbn [fd with_settings with_rd_script io_script settings].
  destruct (fd s <? 0).
  - destruct (-1 =? 0); reflexivity.
  - destruct (io_script s) as [|[] ios]; [reflexivity | |].
    + destruct (0 =? 0); reflexivity.
    + destruct (-1 =? 0); reflexivity.
Qed.

(** On an open port the call is the timeout setting followed by the loop. *)
Lemma SerialReceiveBuffer_open (len : nat) (timeout : Z) (s : state) :
  0 <= fd s ->
  SerialReceiveBuffer len timeout s =
  match SerialSetTimeout timeout s with
  | Done _ s1 =>
      match recv_loop timeout (rd_script s) [] len 0 with
      | None => Starved
      | Some (r, rs, filled, length) =>
          Done (r, filled, length) (with_rd_script rs s1)
      end
  | Starved => Starved
  | Undefined f => Undefined f
  end.
Proof.
  intros Hfd. unfold SerialReceiveBuffer, bind.
  open_guard.
  destruct (SerialSetTimeout timeout s) as [r0 s1| |f] eqn:Hset; try reflexivity.
  apply SerialSetTimeout_frame in Hset.
  destruct Hset as (_ & _ & _ & -> & _). reflexivity.
Qed.

(** What a call of [SerialReceiveBuffer] leaves alone, and how much it can
    have stored. *)
Lemma SerialReceiveBuffer_inv (len : nat) (timeout : Z) (s s' : state)
    (r : Z) (filled : list Z) (n : nat) :
  SerialReceiveBuffer len timeout s = Done (r, filled, n) s' ->
  fd s' = fd s /\ exp s' = exp s /\ btn s' = btn s /\ console s' = console s /\
  (List.length filled <= len)%nat /\
  (0 <= fd s -> n = List.length filled) /\
  (r <> SERIAL_OK -> (0 < len)%nat -> (List.length filled < len)%nat).
Proof.
  destruct (Z.ltb_spec (fd s) 0) as [Hneg|Hpos].
  - unfold SerialReceiveBuffer.
    destruct (Z.ltb_spec (fd s) 0) as [_|]; [|lia].
    intros [= <- <- <- <-]. cbn. repeat split; lia.
  - rewrite SerialReceiveBuffer_open by exact Hpos.
    destruct (SerialSetTimeout timeout s) as [r0 s1| |f] eqn:Hset; try discriminate.
    apply SerialSetTimeout_frame in Hset.
    destruct Hset as (Hfd & Hexp & Hbtn & _ & _ & _ & Hcon & _).
    destruct (recv_loop timeout (rd_script s) [] len 0)
      as [[[[r1 rs1] filled1] n1]|] eqn:Hloop; [|discriminate].
    intros [= <- <- <- <-]. cbn.
    apply recv_loop_inv in Hloop.
    destruct Hloop as (more & Hf & Hn & Hle & Hlt).
    cbn in Hf, Hn. subst filled1 n1.
    repeat split; try assumption; lia.
Qed.

(** When the driver delivers exactly the bytes asked for, the call returns
    them with SERIAL_OK and consumes just the answers that carried them. *)
Lemma SerialReceiveBuffer_delivers (len : nat) (timeout : Z) (s : state)
    (ok : bool) (ios : list bool) (pre rest : list read_result) (bs : list Z) :
  0 <= fd s ->
  io_script s = ok :: ios ->
  rd_script s = pre ++ rest ->
  delivers pre bs ->
  List.length bs = len ->
  exists s',
    SerialReceiveBuffer len timeout s = Done (SERIAL_OK, bs, len) s' /\
    rd_script s' = rest /\ io_script s' = ios /\ fd s' = fd s /\
    exp s' = exp s /\ btn s' = btn s /\ console s' = console s.
Proof.
  intros Hfd Hio Hrd Hd Hlen.
  rewrite SerialReceiveBuffer_open by exact Hfd.
  destruct (SerialSetTimeout_returns timeout s ok ios Hfd Hio) as (s1 & Hset & Hios).
  rewrite Hset, Hrd, (recv_loop_delivers timeout pre bs Hd) by lia.
  replace (len - List.length bs)%nat with 0%nat by lia.
  rewrite recv_loop_done.
  apply SerialSetTimeout_frame in Hset.
  destruct Hset as (Hfd1 & Hexp & Hbtn & _ & _ & _ & Hcon & _).
  eexists. split; [rewrite Hlen; reflexivity|]. cbn. tauto.
Qed.

(** C4.  A read that returns zero bytes ends the loop on the spot: the
    call returns SERIAL_OK when the timeout is negative and
    SERIAL_ERR_TIMEOUT otherwise, in both cases with the bytes collected
    before and their count in [*len], and asks the driver nothing more. *)
Theorem SerialReceiveBuffer_zero_read (s : state) (len : nat) (timeout : Z)
    (pre rest : list read_result) (bs : list Z) (ok : bool) (ios : list bool) :
  0 <= fd s ->
  io_script s = ok :: ios ->
  rd_script s = pre ++ RdData [] :: rest ->
  delivers pre bs ->
  (List.length bs < len)%nat ->
  exists s',
    SerialReceiveBuffer len timeout s =
      Done (if timeout <? 0 then SERIAL_OK else SERIAL_ERR_TIMEOUT,
            bs, List.length bs) s' /\
    rd_script s' = rest.
Proof.
  intros Hfd Hio Hrd Hd Hlen.
  rewrite SerialReceiveBuffer_open by exact Hfd.
  destruct (SerialSetTimeout_returns timeout s ok ios Hfd Hio) as (s1 & -> & _).
  rewrite Hrd, (recv_loop_delivers timeout pre bs Hd) by lia.
  destruct (len - List.length bs)%nat eqn:E; [lia|].
  cbn. eexists. split; reflexivity.
Qed.

Lemma SerialReceiveBuffer_zero_read_witness :
  (exists s',
     SerialReceiveBuffer 4 100
       (sample [true] [RdData [7]; RdFail EINTR; RdData [8]; RdData []; RdData [9]] []) =
       Done (SERIAL_ERR_TIMEOUT, [7; 8], 2%nat) s' /\
     rd_script s' = [RdData [9]]) /\
  (exists s',
     SerialReceiveBuffer 4 (-1)
       (sample [true] [RdData []; RdData [9]] []) =
       Done (SERIAL_OK, [], 0%nat) s' /\
     rd_script s' = [RdData [9]]).
Proof.
  split.
  - apply (SerialReceiveBuffer_zero_read
             (sample [true] [RdData [7]; RdFail EINTR; RdData [8]; RdData []; RdData [9]] [])
             4 100 [RdData [7]; RdFail EINTR; RdData [8]] [RdData [9]] [7; 8] true []).
    + simpl. lia.
    + reflexivity.
    + reflexivity.
    + apply (delivers_data [7]); [discriminate|].
      apply delivers_eintr; [discriminate|].
      apply (delivers_data [8] [] []); [discriminate|].
      apply delivers_nil.
    + simpl. lia.
  - apply (SerialReceiveBuffer_zero_read
             (sample [true] [RdData []; RdData [9]] [])
             4 (-1) [] [RdData [9]] [] true []).
    + simpl. lia.
    + reflexivity.
    + reflexivity.
    + apply delivers_nil.
    + simpl. lia.
Defined.

(** C5, as amended.  On an open port every return of
    [SerialReceiveBuffer] leaves in [*len] the number of bytes stored,
    which never exceeds the number requested; and an interruption (EINTR)
    that comes after some bytes were stored changes neither the result nor
    the state: the loop goes on at the same fill position with the same
    remaining length, and the bytes stored before it head the bytes
    returned. *)
Theorem SerialReceiveBuffer_count (s : state) (len : nat) (timeout : Z) :
  0 <= fd s ->
  (forall r filled n s',
     SerialReceiveBuffer len timeout s = Done (r, filled, n) s' ->
     n = List.length filled /\ (n <= len)%nat) /\
  (forall pre bs rest,
     rd_script s = pre ++ RdFail EINTR :: rest ->
     delivers pre bs ->
     (List.length bs < len)%nat ->
     SerialReceiveBuffer len timeout s =
       SerialReceiveBuffer len timeout (with_rd_script (pre ++ rest) s) /\
     forall r filled n s',
       SerialReceiveBuffer len timeout s = Done (r, filled, n) s' ->
       exists more, filled = bs ++ more).
Proof.
  intros Hfd. split.
  - intros r filled n s' H. apply SerialReceiveBuffer_inv in H.
    destruct H as (_ & _ & _ & _ & Hle & Hn & _).
    specialize (Hn Hfd). subst n. split; [reflexivity | exact Hle].
  - intros pre bs rest Hrd Hd Hlen.
    assert (Hstep :
      recv_loop timeout (rd_script s) [] len 0 =
      recv_loop timeout rest bs (len - List.length bs) (List.length bs)).
    { rewrite Hrd, (recv_loop_delivers timeout pre bs Hd) by lia.
      destruct (len - List.length bs)%nat eqn:E; [lia|].
      cbn [recv_loop app]. rewrite Z.eqb_refl. reflexivity. }
    split.
    + rewrite !SerialReceiveBuffer_open by exact Hfd.
      rewrite SerialSetTimeout_rd_script.
      destruct (SerialSetTimeout timeout s) as [r0 s1| |f]; try reflexivity.
      rewrite Hstep. cbn [rd_script with_rd_script].
      rewrite (recv_loop_delivers timeout pre bs Hd) by lia.
      cbn [app Nat.add].
      destruct (recv_loop timeout rest bs (len - List.length bs) (List.length bs))
        as [[[[r1 rs1] f1] n1]|]; reflexivity.
    + intros r filled n s'. rewrite SerialReceiveBuffer_open by exact Hfd.
      destruct (SerialSetTimeout timeout s) as [r0 s1| |f]; try discriminate.
      rewrite Hstep.
      destruct (recv_loop timeout rest bs (len - List.length bs) (List.length bs))
        as [[[[r1 rs1] f1] n1]|] eqn:Hloop; [|discriminate].
      intros [= <- <- <- <-].
      apply recv_loop_inv in Hloop. destruct Hloop as (more & -> & _).
      exists more. reflexivity.
Qed.

Lemma SerialReceiveBuffer_count_witness :
  (forall r filled n s',
     SerialReceiveBuffer 3 100
       (sample [true] [RdData [7]; RdFail EINTR; RdData [8; 9]] []) =
       Done (r, filled, n) s' ->
     n = List.length filled /\ (n <= 3)%nat) /\
  (SerialReceiveBuffer 3 100
     (sample [true] [RdData [7]; RdFail EINTR; RdData [8; 9]] []) =
   SerialReceiveBuffer 3 100
     (with_rd_script ([RdData [7]] ++ [RdData [8; 9]])
        (sample [true] [RdData [7]; RdFail EINTR; RdData [8; 9]] [])) /\
   forall r filled n s',
     SerialReceiveBuffer 3 100
       (sample [true] [RdData [7]; RdFail EINTR; RdData [8; 9]] []) =
       Done (r, filled, n) s' ->
     exists more, filled = [7] ++ more).
Proof.
  assert (Hfd : 0 <= fd (sample [true] [RdData [7]; RdFail EINTR; RdData [8; 9]] []))
    by (simpl; lia).
  destruct (SerialReceiveBuffer_count
              (sample [true] [RdData [7]; RdFail EINTR; RdData [8; 9]] [])
              3 100 Hfd) as [Hcount Hintr].
  split; [exact Hcount|].
  apply (Hintr [RdData [7]] [7] [RdData [8; 9]]).
  - reflexivity.
  - apply (delivers_data [7] [] []); [discriminate | apply delivers_nil].
  - simpl. lia.
Defined.

(** C5 as stated fails on a port that is not open: the call returns with
    [*len] still 1 although no byte was collected. *)
Lemma SerialReceiveBuffer_unopened_len :
  SerialReceiveBuffer 1 0 (unopened (sample [true] [RdData [7]] [])) =
    Done (SERIAL_ERR_READ, [], 1%nat) (unopened (sample [true] [RdData [7]] [])) /\
  1%nat <> List.length (@nil Z).
Proof. split; [reflexivity | discriminate]. Qed.

(** ** Pedals *)

Lemma alter_stored_nil (i : nat) (l : list (list Z)) :
  alter (stored []) i l = l.
Proof.
  apply list_eq. intros j. destruct (decide (i = j)) as [->|Hne].
  - rewrite list_lookup_alter_eq. destruct (l !! j); reflexivity.
  - rewrite list_lookup_alter_ne by exact Hne. reflexivity.
Qed.

(** C3, as amended.  When the read of the payload fails, [ReadPedal]
    prints the error and returns to the loop.  Fewer than two bytes have
    arrived by then, and those (at most the first) are already stored in
    the pedal's slot, in front of what the slot held; when none arrived the
    slots are as before.  The other slot and the buttons do not change. *)
Theorem ReadPedal_failure (s s1 : state) (pedal err : Z) (filled : list Z)
    (n : nat) :
  in_exp pedal = true ->
  SerialReceiveBuffer 2 0 s = Done (err, filled, n) s1 ->
  err <> SERIAL_OK ->
  exists s',
    ReadPedal pedal s = Done tt s' /\
    console s' = console s ++ [OutPedalError err pedal] /\
    (List.length filled <= 1)%nat /\
    exp s' = alter (stored filled) (Z.to_nat pedal) (exp s) /\
    (forall j : nat, j <> Z.to_nat pedal -> exp s' !! j = exp s !! j) /\
    (filled = [] -> exp s' = exp s) /\
    btn s' = btn s.
Proof.
  intros Hin Hrecv Herr.
  unfold ReadPedal, bind. rewrite Hin. cbn [negb]. rewrite Hrecv.
  destruct (Z.eqb_spec err 0) as [H0|_]; [unfold SERIAL_OK in Herr; lia|].
  apply SerialReceiveBuffer_inv in Hrecv.
  destruct Hrecv as (_ & Hexp & Hbtn & Hcon & _ & _ & Hlt).
  specialize (Hlt Herr ltac:(lia)).
  eexists. split; [reflexivity|].
  cbn [console print with_exp exp btn]. rewrite Hexp, Hbtn, Hcon.
  split; [reflexivity|]. split; [lia|]. split; [reflexivity|].
  split; [intros j Hj; apply list_lookup_alter_ne; congruence|].
  split; [intros ->; apply alter_stored_nil | reflexivity].
Qed.

Lemma ReadPedal_failure_witness :
  exists s',
    ReadPedal 0 (sample [true] [RdData [0x12]; RdFail 11] []) = Done tt s' /\
    console s' =
      console (sample [true] [RdData [0x12]; RdFail 11] []) ++
      [OutPedalError SERIAL_ERR_READ 0] /\
    (List.length [0x12] <= 1)%nat /\
    exp s' = alter (stored [0x12]) (Z.to_nat 0)
               (exp (sample [true] [RdData [0x12]; RdFail 11] [])) /\
    (forall j : nat, j <> Z.to_nat 0 ->
       exp s' !! j = exp (sample [true] [RdData [0x12]; RdFail 11] []) !! j) /\
    ([0x12] = [] -> exp s' = exp (sample [true] [RdData [0x12]; RdFail 11] [])) /\
    btn s' = btn (sample [true] [RdData [0x12]; RdFail 11] []).
Proof.
  apply (ReadPedal_failure (sample [true] [RdData [0x12]; RdFail 11] [])
           (with_rd_script []
              (with_io_script []
                 (with_drv (set_cc VTIME 0 (set_cc VMIN 1 blank_termios))
                    (with_settings (set_cc VTIME 0 (set_cc VMIN 1 blank_termios))
                       (sample [true] [RdData [0x12]; RdFail 11] [])))))
           0 SERIAL_ERR_READ [0x12] 1%nat).
  - reflexivity.
  - reflexivity.
  - discriminate.
Defined.

(** C3 as stated fails when the first payload byte arrives and the next
    read fails (here with EAGAIN): the error is reported, yet the slot of
    pedal 0 no longer holds what it held. *)
Lemma ReadPedal_failure_changes_slot :
  exists s',
    ReadPedal 0 (sample [true] [RdData [0x12]; RdFail 11] []) = Done tt s' /\
    console s' = [OutPedalError SERIAL_ERR_READ 0] /\
    exp (sample [true] [RdData [0x12]; RdFail 11] []) !! 0%nat = Some [0; 0] /\
    exp s' !! 0%nat = Some [0x12; 0] /\
    exp s' <> exp (sample [true] [RdData [0x12]; RdFail 11] []).
Proof.
  eexists. split; [reflexivity|]. cbn. repeat split. discriminate.
Qed.

(** A turn of the loop that receives its command byte runs the [switch] on
    that byte and prints the state. *)
Lemma main_iteration_command (cmd0 c : Z) (s s1 : state) :
  SerialReceiveBuffer 1 1 s = Done (SERIAL_OK, [c], 1%nat) s1 ->
  main_iteration cmd0 s =
  (command_switch c ;;;
   fun s' => Done c (print (OutRender c (exp s') (btn s')) s')) s1.
Proof.
  intros H. unfold main_iteration, SerialReceiveByte, bind at 1 2.
  rewrite H. reflexivity.
Qed.

Lemma ReadPedal_ok (pedal : Z) (s s1 : state) (filled : list Z) (n : nat) :
  in_exp pedal = true ->
  SerialReceiveBuffer 2 0 s = Done (SERIAL_OK, filled, n) s1 ->
  ReadPedal pedal s =
  Done tt (with_exp (alter (stored filled) (Z.to_nat pedal) (exp s1)) s1).
Proof.
  intros Hin H. unfold ReadPedal, bind. rewrite Hin. cbn [negb].
  rewrite H. reflexivity.
Qed.

(** C7.  One turn of the loop on a port that delivers 0xE0 and then 0x12,
    0x34 (in any pieces, interrupted or not) consumes exactly these three
    bytes, runs the pedal branch once for pedal 0 without an error message,
    and leaves [exp[0]] = {0x12, 0x34} with [exp[1]] and the twelve buttons
    as they were. *)
Theorem main_iteration_pedal0 (s : state) (cmd0 : Z) (a b : bool)
    (ios : list bool) (pre1 pre2 rest : list read_result) (p0 p1 : list Z) :
  0 <= fd s ->
  io_script s = a :: b :: ios ->
  rd_script s = pre1 ++ pre2 ++ rest ->
  delivers pre1 [0xE0] ->
  delivers pre2 [0x12; 0x34] ->
  exp s = [p0; p1] ->
  List.length p0 = 2%nat ->
  exists s',
    main_iteration cmd0 s = Done 0xE0 s' /\
    exp s' = [[0x12; 0x34]; p1] /\
    btn s' = btn s /\
    rd_script s' = rest /\
    console s' = console s ++ [OutRender 0xE0 [[0x12; 0x34]; p1] (btn s)].
Proof.
  intros Hfd Hio Hrd Hd1 Hd2 Hexp Hp0.
  destruct (SerialReceiveBuffer_delivers 1 1 s a (b :: ios) pre1 (pre2 ++ rest)
              [0xE0] Hfd Hio Hrd Hd1 eq_refl)
    as (s1 & Hcmd & Hrd1 & Hio1 & Hfd1 & Hexp1 & Hbtn1 & Hcon1).
  assert (Hfd1' : 0 <= fd s1) by lia.
  destruct (SerialReceiveBuffer_delivers 2 0 s1 b ios pre2 rest
              [0x12; 0x34] Hfd1' Hio1 Hrd1 Hd2 eq_refl)
    as (s2 & Hpay & Hrd2 & Hio2 & Hfd2 & Hexp2 & Hbtn2 & Hcon2).
  rewrite (main_iteration_command cmd0 0xE0 s s1 Hcmd).
  unfold bind. change (command_switch 0xE0) with (ReadPedal 0).
  rewrite (ReadPedal_ok 0 s1 s2 [0x12; 0x34] 2 eq_refl Hpay).
  eexists. split; [reflexivity|].
  cbn [exp btn rd_script console print with_exp].
  rewrite Hexp2, Hexp1, Hexp, Hbtn2, Hbtn1, Hcon2, Hcon1, Hrd2.
  assert (Hrow : stored [0x12; 0x34] p0 = [0x12; 0x34]).
  { unfold stored. rewrite drop_ge by (cbn; lia). reflexivity. }
  assert (Halt : alter (stored [0x12; 0x34]) (Z.to_nat 0) [p0; p1] =
                 [[0x12; 0x34]; p1]).
  { change (alter (stored [0x12; 0x34]) (Z.to_nat 0) [p0; p1])
      with [stored [0x12; 0x34] p0; p1].
    rewrite Hrow. reflexivity. }
  rewrite Halt. repeat split.
Qed.

Lemma main_iteration_pedal0_witness :
  exists s',
    main_iteration 0
      (sample [true; true] [RdData [0xE0]; RdData [0x12]; RdFail EINTR; RdData [0x34]] []) =
      Done 0xE0 s' /\
    exp s' = [[0x12; 0x34]; [0; 0]] /\
    btn s' =
      btn (sample [true; true] [RdData [0xE0]; RdData [0x12]; RdFail EINTR; RdData [0x34]] []) /\
    rd_script s' = [] /\
    console s' =
      console (sample [true; true] [RdData [0xE0]; RdData [0x12]; RdFail EINTR; RdData [0x34]] []) ++
      [OutRender 0xE0 [[0x12; 0x34]; [0; 0]]
         (btn (sample [true; true] [RdData [0xE0]; RdData [0x12]; RdFail EINTR; RdData [0x34]] []))].
Proof.
  apply (main_iteration_pedal0
           (sample [true; true] [RdData [0xE0]; RdData [0x12]; RdFail EINTR; RdData [0x34]] [])
           0 true true [] [RdData [0xE0]]
           [RdData [0x12]; RdFail EINTR; RdData [0x34]] [] [0; 0] [0; 0]).
  - simpl. lia.
  - reflexivity.
  - reflexivity.
  - apply (delivers_data [0xE0] [] []); [discriminate | apply delivers_nil].
  - apply (delivers_data [0x12] _ [0x34]); [discriminate|].
    apply delivers_eintr; [discriminate|].
    apply (delivers_data [0x34] [] []); [discriminate | apply delivers_nil].
  - reflexivity.
  - reflexivity.
Defined.

(** The buttons of C8 through two whole turns of the loop. *)
Example main_loop_0xF3_0xFF :
  exists s1 s2,
    main_loop 1 0 (sample [true; true] [RdData [0xF3]; RdData [0xFF]] []) =
      Done 0xF3 s1 /\
    btn s1 = [0; 0; 0; 1; 0; 0; 0; 0; 0; 0; 0; 0] /\
    main_loop 1 0xF3 s1 = Done 0xFF s2 /\
    btn s2 = replicate 12 0.
Proof.
  eexists _, _.
  split; [vm_compute; reflexivity|].
  split; [reflexivity|].
  split; [vm_compute; reflexivity | reflexivity].
Qed.

(** ** The send loop *)

Lemma send_loop_done (ws : list write_result) (sent : list Z) :
  send_loop ws [] sent = Some (SERIAL_OK, ws, sent).
Proof. destruct ws; reflexivity. Qed.

(** Invariant of the loop: what went out is a prefix of the buffer, all of
    it when the loop reports SERIAL_OK, and the only other report is
    SERIAL_ERR_WRITE. *)
Lemma send_loop_inv (ws : list write_result) :
  forall (buf sent : list Z) r ws' sent',
    send_loop ws buf sent = Some (r, ws', sent') ->
    exists unsent,
      sent' ++ unsent = sent ++ buf /\
      (r = SERIAL_OK -> unsent = []) /\
      (r = SERIAL_OK \/ r = SERIAL_ERR_WRITE).
Proof.
  induction ws as [|a ws IH]; intros buf sent r ws' sent'.
  - destruct buf; cbn; [|discriminate].
    intros [= <- <- <-]. exists []. auto.
  - destruct buf as [|b buf].
    { cbn. intros [= <- <- <-]. exists []. auto. }
    cbn [send_loop]. destruct a as [n|e].
    + intros H. apply IH in H. destruct H as (unsent & Heq & Hok & Hr).
      exists unsent. rewrite Heq, <- app_assoc, take_drop. auto.
    + destruct (e =? EINTR).
      * apply IH.
      * intros [= <- <- <-]. exists (b :: buf).
        split; [reflexivity|]. split; [discriminate | right; reflexivity].
Qed.

(** Partial writes that leave part of the buffer unsent move the loop on
    to the remainder. *)
Lemma send_loop_accepts (ns : list nat) :
  forall (ws : list write_result) (buf sent : list Z),
    (sum_list ns < List.length buf)%nat ->
    send_loop (map WrAccept ns ++ ws) buf sent =
    send_loop ws (drop (sum_list ns) buf) (sent ++ take (sum_list ns) buf).
Proof.
  induction ns as [|n ns IH]; intros ws buf sent Hlt.
  - cbn. rewrite app_nil_r. reflexivity.
  - cbn in Hlt. destruct buf as [|b buf]; [cbn in Hlt; lia|].
    cbn [map app send_loop].
    rewrite IH by (rewrite length_drop; lia).
    rewrite drop_drop, <- app_assoc, take_take_drop. reflexivity.
Qed.

(** C6.  [SerialSendBuffer] reports SERIAL_OK only when the whole buffer
    has gone out, and reports nothing but SERIAL_OK or SERIAL_ERR_WRITE.
    After partial writes the loop goes on with the unsent remainder until
    the last byte is taken; an interruption (EINTR) met on the way leaves
    result and state as if it had not happened; any other failure ends the
    call at once with SERIAL_ERR_WRITE, no further write being tried. *)
Theorem SerialSendBuffer_all_or_error (s : state) (buf : list Z) :
  (forall s', SerialSendBuffer buf s = Done SERIAL_OK s' ->
     0 <= fd s /\ wire s' = wire s ++ buf) /\
  (forall r s', SerialSendBuffer buf s = Done r s' ->
     r = SERIAL_OK \/ r = SERIAL_ERR_WRITE) /\
  (forall ns n rest,
     0 <= fd s ->
     wr_script s = map WrAccept ns ++ WrAccept n :: rest ->
     (sum_list ns < List.length buf <= sum_list ns + n)%nat ->
     SerialSendBuffer buf s = Done SERIAL_OK (with_wr rest (wire s ++ buf) s)) /\
  (forall ns rest,
     0 <= fd s ->
     wr_script s = map WrAccept ns ++ WrFail EINTR :: rest ->
     (sum_list ns < List.length buf)%nat ->
     SerialSendBuffer buf s =
     SerialSendBuffer buf (with_wr (map WrAccept ns ++ rest) (wire s) s)) /\
  (forall ns e rest,
     0 <= fd s ->
     wr_script s = map WrAccept ns ++ WrFail e :: rest ->
     e <> EINTR ->
     (sum_list ns < List.length buf)%nat ->
     SerialSendBuffer buf s =
     Done SERIAL_ERR_WRITE
       (with_wr rest (wire s ++ take (sum_list ns) buf) s)).
Proof.
  assert (Hopen : 0 <= fd s -> (fd s <? 0) = false) by (intros; apply Z.ltb_ge; lia).
  repeat apply conj.
  - intros s'. unfold SerialSendBuffer.
    destruct (Z.ltb_spec (fd s) 0) as [|Hfd]; [discriminate|].
    destruct (send_loop (wr_script s) buf (wire s)) as [[[r ws] sent]|] eqn:Hloop;
      [|discriminate].
    intros [= -> <-]. apply send_loop_inv in Hloop.
    destruct Hloop as (unsent & Heq & Hok & _).
    rewrite (Hok eq_refl), app_nil_r in Heq. cbn. split; [lia | exact Heq].
  - intros r s'. unfold SerialSendBuffer.
    destruct (fd s <? 0); [intros [= <- _]; right; reflexivity|].
    destruct (send_loop (wr_script s) buf (wire s)) as [[[r1 ws] sent]|] eqn:Hloop;
      [|discriminate].
    intros [= <- _]. apply send_loop_inv in Hloop.
    destruct Hloop as (_ & _ & _ & Hr). exact Hr.
  - intros ns n rest Hfd Hws Hlen. unfold SerialSendBuffer.
    rewrite (Hopen Hfd), Hws, send_loop_accepts by lia.
    destruct (drop (sum_list ns) buf) as [|b tl] eqn:Hdrop.
    { apply (f_equal List.length) in Hdrop. rewrite length_drop in Hdrop.
      cbn in Hdrop. lia. }
    cbn [send_loop]. rewrite <- Hdrop.
    rewrite drop_drop, drop_ge, send_loop_done by lia.
    rewrite <- app_assoc, take_take_drop, take_ge by lia. reflexivity.
  - intros ns rest Hfd Hws Hlen. unfold SerialSendBuffer.
    cbn [fd with_wr wr_script wire].
    rewrite (Hopen Hfd), Hws, !send_loop_accepts by lia.
    destruct (drop (sum_list ns) buf) as [|b tl] eqn:Hdrop.
    { apply (f_equal List.length) in Hdrop. rewrite length_drop in Hdrop.
      cbn in Hdrop. lia. }
    cbn [send_loop]. rewrite Z.eqb_refl.
    destruct (send_loop rest (b :: tl) (wire s ++ take (sum_list ns) buf))
      as [[[r ws] sent]|]; reflexivity.
  - intros ns e rest Hfd Hws He Hlen. unfold SerialSendBuffer.
    rewrite (Hopen Hfd), Hws, send_loop_accepts by lia.
    destruct (drop (sum_list ns) buf) as [|b tl] eqn:Hdrop.
    { apply (f_equal List.length) in Hdrop. rewrite length_drop in Hdrop.
      cbn in Hdrop. lia. }
    cbn [send_loop].
    destruct (Z.eqb_spec e EINTR) as [|_]; [contradiction | reflexivity].
Qed.

Lemma SerialSendBuffer_all_or_error_witness :
  (0 <= fd (sample [] [] [WrAccept 1; WrFail EINTR; WrAccept 5]) /\
   wire (with_wr [] [1; 2; 3] (sample [] [] [WrAccept 1; WrFail EINTR; WrAccept 5])) =
   wire (sample [] [] [WrAccept 1; WrFail EINTR; WrAccept 5]) ++ [1; 2; 3]) /\
  SerialSendBuffer [1; 2; 3] (sample [] [] [WrAccept 1; WrFail EINTR; WrAccept 5]) =
  SerialSendBuffer [1; 2; 3]
    (with_wr (map WrAccept [1%nat] ++ [WrAccept 5]) []
       (sample [] [] [WrAccept 1; WrFail EINTR; WrAccept 5])) /\
  SerialSendBuffer [1; 2; 3] (sample [] [] [WrAccept 1; WrFail 5; WrAccept 5]) =
  Done SERIAL_ERR_WRITE
    (with_wr [WrAccept 5] ([] ++ take (sum_list [1%nat]) [1; 2; 3])
       (sample [] [] [WrAccept 1; WrFail 5; WrAccept 5])).
Proof.
  split; [|split].
  - apply (proj1 (SerialSendBuffer_all_or_error
                    (sample [] [] [WrAccept 1; WrFail EINTR; WrAccept 5]) [1; 2; 3])).
    reflexivity.
  - apply (proj1 (proj2 (proj2 (proj2 (SerialSendBuffer_all_or_error
                    (sample [] [] [WrAccept 1; WrFail EINTR; WrAccept 5]) [1; 2; 3]))))
             [1%nat] [WrAccept 5]).
    + simpl. lia.
    + reflexivity.
    + simpl. lia.
  - apply (proj2 (proj2 (proj2 (proj2 (SerialSendBuffer_all_or_error
                    (sample [] [] [WrAccept 1; WrFail 5; WrAccept 5]) [1; 2; 3]))))
             [1%nat] 5 [WrAccept 5]).
    + simpl. lia.
    + reflexivity.
    + discriminate.
    + simpl. lia.
Defined.

(** ** Line format *)

Lemma datasize_spec (c : ascii) (cflags : Z) :
  if is_data c then exists v, datasize c cflags = Some v
  else datasize c cflags = None.
Proof.
  destruct c as [[] [] [] [] [] [] [] []]; cbn; try reflexivity; eexists; reflexivity.
Qed.

Lemma parity_spec (c : ascii) (cflags : Z) :
  if is_parity c then exists v, parity c cflags = Some v
  else parity c cflags = None.
Proof.
  destruct c as [[] [] [] [] [] [] [] []]; cbn; try reflexivity; eexists; reflexivity.
Qed.

Lemma stopbit_spec (c : ascii) (cflags : Z) :
  if is_stop c then exists v, stopbit c cflags = Some v
  else stopbit c cflags = None.
Proof.
  destruct c as [[] [] [] [] [] [] [] []]; cbn; try reflexivity; eexists; reflexivity.
Qed.

(** C9.  On an open port whose driver accepts the two requests,
    [SerialInit] returns SERIAL_OK for each of the formats the
    specification enumerates, the driver then holding the configuration
    and the line having been flushed.  For every other format, a missing
    string and one of the wrong length included, it returns
    SERIAL_ERR_INIT and the state is untouched: no request has reached the
    driver and [settings] is as it was. *)
Theorem SerialInit_format (s : state) (baud : Z) (format : option string)
    (rtscts : Z) :
  (supported_format format = true ->
   0 <= fd s ->
   forall ios, io_script s = true :: true :: ios ->
   exists s',
     SerialInit baud format rtscts s = Done SERIAL_OK s' /\
     drv s' = settings s' /\
     io_script s' = ios /\
     flushes s' = S (flushes s)) /\
  (supported_format format = false ->
   SerialInit baud format rtscts s = Done SERIAL_ERR_INIT s).
Proof.
  split.
  - intros Hfmt Hfd ios Hio.
    destruct format as [[|d [|p [|t [|x f]]]]|]; try discriminate.
    cbn in Hfmt.
    apply andb_prop in Hfmt. destruct Hfmt as [Hfmt Ht].
    apply andb_prop in Hfmt. destruct Hfmt as [Hd Hp].
    unfold SerialInit.
    open_guard.
    cbn [String.length Nat.eqb negb char_at String.get].
    set (cf0 := Z.lor (c_cflag (settings s)) (Z.lor CLOCAL CREAD)).
    pose proof (datasize_spec d cf0) as H1. rewrite Hd in H1.
    destruct H1 as [cf1 ->].
    pose proof (parity_spec p cf1) as H2. rewrite Hp in H2.
    destruct H2 as [cf2 ->].
    pose proof (stopbit_spec t cf2) as H3. rewrite Ht in H3.
    destruct H3 as [cf3 ->].
    destruct (baudrate baud cf3 0) as [cf4 speed].
    unfold bind, ioctl, SerialFlush, tcflush, ret.
    cbn [fd with_settings io_script with_io_script with_drv].
    open_guard.
    rewrite Hio. cbn [Z.eqb negb].
    cbn [fd with_settings io_script with_io_script with_drv].
    open_guard.
    cbn [Z.eqb negb].
    cbn [fd with_settings io_script with_io_script with_drv].
    open_guard.
    eexists. split; [reflexivity|]. cbn. repeat split.
  - intros Hfmt. unfold SerialInit.
    destruct (fd s <? 0); [reflexivity|].
    destruct format as [f|]; [|reflexivity].
    destruct f as [|d [|p [|t [|x f]]]]; try reflexivity.
    cbn in Hfmt.
    cbn [String.length Nat.eqb negb char_at String.get].
    set (cf0 := Z.lor (c_cflag (settings s)) (Z.lor CLOCAL CREAD)).
    pose proof (datasize_spec d cf0) as H1.
    destruct (is_data d); [|rewrite H1; reflexivity].
    destruct H1 as [cf1 ->].
    pose proof (parity_spec p cf1) as H2.
    destruct (is_parity p); [|rewrite H2; reflexivity].
    destruct H2 as [cf2 ->].
    pose proof (stopbit_spec t cf2) as H3.
    destruct (is_stop t); [discriminate|]. rewrite H3. reflexivity.
Qed.

Lemma SerialInit_format_witness :
  (exists s',
     SerialInit 10416 (Some "8N1"%string) 0 (sample [true; true] [] []) =
       Done SERIAL_OK s' /\
     drv s' = settings s' /\
     io_script s' = [] /\
     flushes s' = S (flushes (sample [true; true] [] []))) /\
  SerialInit 10416 (Some "9N1"%string) 0 (sample [true; true] [] []) =
    Done SERIAL_ERR_INIT (sample [true; true] [] []).
Proof.
  split.
  - apply (proj1 (SerialInit_format (sample [true; true] [] []) 10416
                    (Some "8N1"%string) 0)).
    + reflexivity.
    + simpl. lia.
    + reflexivity.
  - apply (proj2 (SerialInit_format (sample [true; true] [] []) 10416
                    (Some "9N1"%string) 0)).
    reflexivity.
Defined.

(** The operating point of [main]: 10416 baud is no named rate, so the
    request goes out as BOTHER with the rate in the speed fields. *)
Example SerialInit_8N1_10416 :
  exists s',
    SerialInit 10416 (Some "8N1"%string) 0 (sample [true; true] [] []) =
      Done SERIAL_OK s' /\
    c_cflag (drv s') = Z.lor (Z.lor (Z.lor CLOCAL CREAD) CS8) BOTHER /\
    c_ospeed (drv s') = 10416 /\
    c_iflag (drv s') = IGNPAR.
Proof. eexists. split; [vm_compute; reflexivity|]. repeat split. Qed.

(** * Further properties of the code *)

(** ** The command switch *)

(** The [switch] as a chain of tests on the high nibble. *)
Lemma command_switch_eq (cmd : Z) :
  command_switch cmd =
  if Z.land cmd 0xF0 =? 0xE0 then ReadPedal (Z.land cmd 0x01)
  else if Z.land cmd 0xF0 =? 0xF0 then ReadButton (Z.land cmd 0x0F)
  else ret tt.
Proof.
  unfold command_switch. generalize (Z.land cmd 0xF0). intros z.
  destruct (Z.eqb_spec z 0xE0) as [->|HE]; [reflexivity|].
  destruct (Z.eqb_spec z 0xF0) as [->|HF]; [reflexivity|].
  destruct z as [|p|p]; try reflexivity.
  do 8 (destruct p as [p|p|]; try reflexivity); congruence.
Qed.

(** A property of all byte values, checked value by value. *)
Lemma byte_forall (P : Z -> bool) :
  forallb P (map Z.of_nat (seq 0 256)) = true ->
  forall c, 0 <= c < 256 -> P c = true.
Proof.
  intros H c Hc. rewrite List.forallb_forall in H. apply H.
  apply List.in_map_iff. exists (Z.to_nat c).
  split; [lia | apply List.in_seq; lia].
Qed.

Lemma land_1_range (c : Z) : 0 <= Z.land c 1 < 2.
Proof.
  change 1 with (Z.ones 1). rewrite Z.land_ones by lia.
  apply Z.mod_pos_bound. lia.
Qed.

Lemma land_15_range (c : Z) : 0 <= Z.land c 0x0F < 16.
Proof.
  change 0x0F with (Z.ones 4). rewrite Z.land_ones by lia.
  apply Z.mod_pos_bound. lia.
Qed.

Lemma in_exp_land_1 (c : Z) : in_exp (Z.land c 1) = true.
Proof.
  pose proof (land_1_range c). unfold in_exp.
  apply andb_true_intro. split; [apply Z.leb_le | apply Z.ltb_lt]; lia.
Qed.

Lemma SerialSetTimeout_defined (ms : Z) (s : state) (f : fault) :
  SerialSetTimeout ms s <> Undefined f.
Proof.
  unfold SerialSetTimeout, bind, ioctl, ret. cbn [fd with_settings io_script].
  destruct (fd s <? 0); [destruct (-1 =? 0); discriminate|].
  destruct (io_script s) as [|[] ios]; [discriminate | |].
  - destruct (0 =? 0); discriminate.
  - destruct (-1 =? 0); discriminate.
Qed.

Lemma SerialReceiveBuffer_defined (len : nat) (timeout : Z) (s : state) (f : fault) :
  SerialReceiveBuffer len timeout s <> Undefined f.
Proof.
  unfold SerialReceiveBuffer, bind. destruct (fd s <? 0); [discriminate|].
  destruct (SerialSetTimeout timeout s) as [r s1| |f1] eqn:Hset.
  - destruct (recv_loop timeout (rd_script s1) [] len 0) as [[[[r1 rs] fl] n]|];
      discriminate.
  - discriminate.
  - exfalso. exact (SerialSetTimeout_defined _ _ _ Hset).
Qed.

Lemma ReadPedal_defined (pedal : Z) (s : state) (f : fault) :
  in_exp pedal = true -> ReadPedal pedal s <> Undefined f.
Proof.
  intros Hin. unfold ReadPedal, bind. rewrite Hin. cbn [negb].
  destruct (SerialReceiveBuffer 2 0 s) as [[[r fl] n] s1| |f1] eqn:Hrecv.
  - destruct (r =? 0); discriminate.
  - discriminate.
  - exfalso. exact (SerialReceiveBuffer_defined _ _ _ _ Hrecv).
Qed.

Lemma byte_nibbles (c : Z) :
  0 <= c < 256 ->
  Z.land c 0xF0 = 16 * (c / 16) /\ Z.land c 0x0F = c mod 16 /\
  Z.land c 0x01 = c mod 2.
Proof.
  intros Hc.
  pose proof (byte_forall
    (fun c => (Z.land c 0xF0 =? 16 * (c / 16)) &&
              (Z.land c 0x0F =? c mod 16) && (Z.land c 0x01 =? c mod 2))
    ltac:(vm_compute; reflexivity) c Hc) as H.
  cbv beta in H.
  apply andb_prop in H. destruct H as [H H3].
  apply andb_prop in H. destruct H as [H1 H2].
  repeat split; apply Z.eqb_eq; assumption.
Qed.

(** X1.  Every command byte from 0xE0 to 0xEF is a pedal command: the low
    bit alone selects the pedal, bits 1 to 3 are not looked at. *)
Theorem command_switch_pedal_select (cmd : Z) :
  0xE0 <= cmd <= 0xEF ->
  command_switch cmd = ReadPedal (cmd mod 2).
Proof.
  intros Hc. rewrite command_switch_eq.
  destruct (byte_nibbles cmd ltac:(lia)) as (Hhi & _ & Hbit).
  rewrite Hhi, Hbit.
  pose proof (Z.div_mod cmd 16 ltac:(lia)) as Hdm.
  pose proof (Z.mod_pos_bound cmd 16 ltac:(lia)) as Hb.
  assert (Hq : cmd / 16 = 14) by lia.
  rewrite Hq. reflexivity.
Qed.

Lemma command_switch_pedal_select_witness :
  command_switch 0xE7 = ReadPedal (0xE7 mod 2).
Proof. apply command_switch_pedal_select. lia. Defined.

(** X2.  A command byte from 0xF0 to 0xFB sets the button of its low
    nibble and changes nothing else: the other eleven flags, the pedal
    slots, the driver and the console are as before. *)
Theorem command_switch_button_set (cmd : Z) (s : state) :
  0xF0 <= cmd <= 0xFB ->
  List.length (btn s) = 12%nat ->
  exists s',
    command_switch cmd s = Done tt s' /\
    s' = with_btn (btn s') s /\
    btn s' !! Z.to_nat (cmd - 0xF0) = Some 1 /\
    (forall i : nat, i <> Z.to_nat (cmd - 0xF0) -> btn s' !! i = btn s !! i) /\
    List.length (btn s') = 12%nat.
Proof.
  intros Hc Hlen. rewrite command_switch_eq.
  destruct (byte_nibbles cmd ltac:(lia)) as (Hhi & Hlo & _).
  pose proof (Z.div_mod cmd 16 ltac:(lia)) as Hdm.
  pose proof (Z.mod_pos_bound cmd 16 ltac:(lia)) as Hb.
  assert (Hq : cmd / 16 = 15) by lia.
  assert (Hr : cmd mod 16 = cmd - 240) by lia.
  rewrite Hhi, Hlo, Hq, Hr. cbn [Z.mul Z.eqb Pos.mul Pos.eqb].
  unfold ReadButton, in_btn.
  destruct (Z.eqb_spec (cmd - 240) 15) as [|_]; [lia|].
  destruct (Z.leb_spec 0 (cmd - 240)) as [_|]; [|lia].
  destruct (Z.ltb_spec (cmd - 240) 12) as [_|]; [|lia].
  cbn [andb]. eexists. split; [reflexivity|]. cbn [btn with_btn].
  split; [reflexivity|].
  split; [apply list_lookup_insert_eq; lia|].
  split; [intros i Hi; apply list_lookup_insert_ne; congruence|].
  rewrite length_insert. exact Hlen.
Qed.

Lemma command_switch_button_set_witness :
  exists s',
    command_switch 0xFB (sample [] [] []) = Done tt s' /\
    s' = with_btn (btn s') (sample [] [] []) /\
    btn s' !! Z.to_nat (0xFB - 0xF0) = Some 1 /\
    (forall i : nat, i <> Z.to_nat (0xFB - 0xF0) ->
       btn s' !! i = btn (sample [] [] []) !! i) /\
    List.length (btn s') = 12%nat.
Proof.
  apply (command_switch_button_set 0xFB (sample [] [] [])).
  - lia.
  - reflexivity.
Defined.

(** X4.  Buttons are only ever cleared by the byte 0xFF: after any other
    command byte that the switch completes, a flag that was set is still
    set.  Pedal commands do not touch the buttons at all. *)
Theorem command_switch_buttons_stay (cmd : Z) (s s' : state) :
  0 <= cmd < 256 ->
  cmd <> 0xFF ->
  command_switch cmd s = Done tt s' ->
  (forall i : nat, btn s !! i = Some 1 -> btn s' !! i = Some 1) /\
  (Z.land cmd 0xF0 <> 0xF0 -> btn s' = btn s).
Proof.
  intros Hc Hne. rewrite command_switch_eq.
  destruct (byte_nibbles cmd Hc) as (Hhi & Hlo & _).
  pose proof (Z.div_mod cmd 16 ltac:(lia)) as Hdm.
  pose proof (Z.mod_pos_bound cmd 16 ltac:(lia)) as Hb.
  destruct (Z.eqb_spec (Z.land cmd 0xF0) 0xE0) as [HE|_].
  { unfold ReadPedal, bind. rewrite in_exp_land_1. cbn [negb].
    destruct (SerialReceiveBuffer 2 0 s) as [[[r fl] n] s1| |f1] eqn:Hrecv;
      try discriminate.
    apply SerialReceiveBuffer_inv in Hrecv.
    destruct Hrecv as (_ & _ & Hbtn & _).
    destruct (r =? 0); intros [= <-]; cbn [btn with_exp print];
      rewrite Hbtn; split; auto. }
  destruct (Z.eqb_spec (Z.land cmd 0xF0) 0xF0) as [HF|HF].
  - rewrite Hhi in HF. rewrite Hlo. unfold ReadButton, in_btn.
    destruct (Z.eqb_spec (cmd mod 16) 15) as [|_]; [lia|].
    destruct ((0 <=? cmd mod 16) && (cmd mod 16 <? 12)); [|discriminate].
    intros [= <-]. cbn [btn with_btn]. split; [|lia].
    intros i Hi.
    destruct (decide (Z.to_nat (cmd mod 16) = i)) as [<-|Hd].
    + apply list_lookup_insert_eq. apply lookup_lt_Some in Hi. exact Hi.
    + rewrite list_lookup_insert_ne by exact Hd. exact Hi.
  - intros [= <-]. split; auto.
Qed.

Lemma command_switch_buttons_stay_witness :
  (forall i : nat,
     btn (with_btn (<[3%nat := 1]> (replicate 12 0)) (sample [] [] [])) !! i = Some 1 ->
     btn (with_btn (<[5%nat := 1]> (<[3%nat := 1]> (replicate 12 0)))
            (sample [] [] [])) !! i = Some 1) /\
  (Z.land 0xF5 0xF0 <> 0xF0 ->
   btn (with_btn (<[5%nat := 1]> (<[3%nat := 1]> (replicate 12 0)))
          (sample [] [] [])) =
   btn (with_btn (<[3%nat := 1]> (replicate 12 0)) (sample [] [] []))).
Proof.
  apply (command_switch_buttons_stay 0xF5
           (with_btn (<[3%nat := 1]> (replicate 12 0)) (sample [] [] []))).
  - lia.
  - discriminate.
  - reflexivity.
Defined.

(** ** Receiving *)

(** Which configuration the driver holds after [SerialSetTimeout]. *)
Lemma SerialSetTimeout_drv (ms r : Z) (s s' : state) (ok : bool) (ios : list bool) :
  0 <= fd s -> io_script s = ok :: ios ->
  SerialSetTimeout ms s = Done r s' ->
  io_script s' = ios /\
  (ok = false -> drv s' = drv s /\ r = SERIAL_ERR_INIT) /\
  (ok = true -> drv s' = settings s' /\ r = SERIAL_OK).
Proof.
  intros Hfd Hio. unfold SerialSetTimeout, bind, ioctl, ret.
  cbn [fd with_settings io_script]. open_guard. rewrite Hio.
  destruct ok; cbn; intros [= <- <-]; cbn; repeat split; congruence.
Qed.

(** X5.  A failure of [read] other than an interruption ends
    [SerialReceiveBuffer] at once with SERIAL_ERR_READ; the bytes stored
    before the failure are kept and counted in [*len], and the driver is
    not asked again. *)
Theorem SerialReceiveBuffer_read_error (s : state) (len : nat) (timeout e : Z)
    (pre rest : list read_result) (bs : list Z) (ok : bool) (ios : list bool) :
  0 <= fd s ->
  io_script s = ok :: ios ->
  rd_script s = pre ++ RdFail e :: rest ->
  e <> EINTR ->
  delivers pre bs ->
  (List.length bs < len)%nat ->
  exists s',
    SerialReceiveBuffer len timeout s =
      Done (SERIAL_ERR_READ, bs, List.length bs) s' /\
    rd_script s' = rest.
Proof.
  intros Hfd Hio Hrd He Hd Hlen.
  rewrite SerialReceiveBuffer_open by exact Hfd.
  destruct (SerialSetTimeout_returns timeout s ok ios Hfd Hio) as (s1 & -> & _).
  rewrite Hrd, (recv_loop_delivers timeout pre bs Hd) by lia.
  destruct (len - List.length bs)%nat eqn:E; [lia|].
  cbn [recv_loop]. destruct (Z.eqb_spec e EINTR) as [|_]; [contradiction|].
  eexists. split; reflexivity.
Qed.

Lemma SerialReceiveBuffer_read_error_witness :
  exists s',
    SerialReceiveBuffer 4 100
      (sample [true] [RdData [7; 8]; RdFail 5; RdData [9]] []) =
      Done (SERIAL_ERR_READ, [7; 8], List.length [7; 8]) s' /\
    rd_script s' = [RdData [9]].
Proof.
  apply (SerialReceiveBuffer_read_error
           (sample [true] [RdData [7; 8]; RdFail 5; RdData [9]] [])
           4 100 5 [RdData [7; 8]] [RdData [9]] [7; 8] true []).
  - simpl. lia.
  - reflexivity.
  - reflexivity.
  - discriminate.
  - apply (delivers_data [7; 8] [] []); [discriminate | apply delivers_nil].
  - simpl. lia.
Defined.

(** X6.  [SerialReceiveBuffer] does not look at what [SerialSetTimeout]
    returns.  When the driver refuses the timeout request the call reads
    all the same, and returns the requested bytes with SERIAL_OK if they
    arrive, the driver still holding its former configuration. *)
Theorem SerialReceiveBuffer_ignores_timeout_failure (s : state) (len : nat)
    (timeout : Z) (pre rest : list read_result) (bs : list Z) (ios : list bool) :
  0 <= fd s ->
  io_script s = false :: ios ->
  rd_script s = pre ++ rest ->
  delivers pre bs ->
  List.length bs = len ->
  exists s',
    SerialReceiveBuffer len timeout s = Done (SERIAL_OK, bs, len) s' /\
    SerialSetTimeout timeout s =
      Done SERIAL_ERR_INIT (with_rd_script (rd_script s) s') /\
    drv s' = drv s /\
    rd_script s' = rest.
Proof.
  intros Hfd Hio Hrd Hd Hlen.
  rewrite SerialReceiveBuffer_open by exact Hfd.
  destruct (SerialSetTimeout_returns timeout s false ios Hfd Hio)
    as (s1 & Hset & _).
  rewrite Hset.
  destruct (SerialSetTimeout_drv _ _ _ _ _ _ Hfd Hio Hset) as (_ & Hdrv & _).
  destruct (Hdrv eq_refl) as [Hd1 _].
  pose proof (SerialSetTimeout_frame _ _ _ _ Hset) as (_ & _ & _ & Hrd1 & _).
  rewrite Hrd, (recv_loop_delivers timeout pre bs Hd) by lia.
  replace (len - List.length bs)%nat with 0%nat by lia.
  rewrite recv_loop_done. cbn [app Nat.add].
  eexists. split; [rewrite Hlen; reflexivity|].
  cbn [drv rd_script with_rd_script]. repeat split; try assumption.
  f_equal. rewrite <- Hrd, <- Hrd1. destruct s1; reflexivity.
Qed.

Lemma SerialReceiveBuffer_ignores_timeout_failure_witness :
  exists s',
    SerialReceiveBuffer 2 100 (sample [false] [RdData [7]; RdData [8]; RdData [9]] []) =
      Done (SERIAL_OK, [7; 8], 2%nat) s' /\
    SerialSetTimeout 100 (sample [false] [RdData [7]; RdData [8]; RdData [9]] []) =
      Done SERIAL_ERR_INIT
        (with_rd_script
           (rd_script (sample [false] [RdData [7]; RdData [8]; RdData [9]] [])) s') /\
    drv s' = drv (sample [false] [RdData [7]; RdData [8]; RdData [9]] []) /\
    rd_script s' = [RdData [9]].
Proof.
  apply (SerialReceiveBuffer_ignores_timeout_failure
           (sample [false] [RdData [7]; RdData [8]; RdData [9]] [])
           2 100 [RdData [7]; RdData [8]] [RdData [9]] [7; 8] []).
  - simpl. lia.
  - reflexivity.
  - reflexivity.
  - apply (delivers_data [7] _ [8]); [discriminate|].
    apply (delivers_data [8] [] []); [discriminate | apply delivers_nil].
  - reflexivity.
Defined.

(** With a timeout that is not negative the loop reports SERIAL_OK only
    when it has stored all [len] bytes. *)
Lemma recv_loop_ok_full (timeout : Z) (rs : list read_result) :
  0 <= timeout ->
  forall (filled : list Z) (len length : nat) rs' filled' n,
    recv_loop timeout rs filled len length = Some (SERIAL_OK, rs', filled', n) ->
    List.length filled' = (List.length filled + len)%nat.
Proof.
  intros Ht. induction rs as [|a rs IH]; intros filled len length rs' filled' n.
  - destruct len; cbn; [|discriminate]. intros [= <- <- <-]. lia.
  - destruct len as [|k].
    { cbn. intros [= <- <- <-]. lia. }
    cbn [recv_loop]. destruct a as [bs|e].
    + destruct (take (S k) bs) as [|b got] eqn:Hgot.
      * cbn [List.length]. destruct (Z.ltb_spec timeout 0) as [|_]; [lia|].
        discriminate.
      * cbn [List.length]. intros H. apply IH in H.
        assert (Hb : (List.length (b :: got) <= S k)%nat).
        { rewrite <- Hgot, length_take. lia. }
        rewrite length_app in H. cbn [List.length] in H, Hb. lia.
    + destruct (e =? EINTR); [apply IH | discriminate].
Qed.

(** X7.  With a timeout that is not negative, SERIAL_OK from
    [SerialReceiveBuffer] on an open port means the request was filled:
    exactly the requested number of bytes was stored and [*len] holds that
    number. *)
Theorem SerialReceiveBuffer_ok_full (s s' : state) (len n : nat) (timeout : Z)
    (filled : list Z) :
  0 <= fd s ->
  0 <= timeout ->
  SerialReceiveBuffer len timeout s = Done (SERIAL_OK, filled, n) s' ->
  List.length filled = len /\ n = len.
Proof.
  intros Hfd Ht H.
  pose proof (SerialReceiveBuffer_inv _ _ _ _ _ _ _ H) as (_ & _ & _ & _ & _ & Hn & _).
  specialize (Hn Hfd).
  rewrite SerialReceiveBuffer_open in H by exact Hfd.
  destruct (SerialSetTimeout timeout s) as [r0 s1| |f]; try discriminate.
  destruct (recv_loop timeout (rd_script s) [] len 0)
    as [[[[r1 rs1] f1] n1]|] eqn:Hloop; [|discriminate].
  injection H as -> -> -> _.
  apply (recv_loop_ok_full timeout _ Ht) in Hloop. cbn in Hloop. lia.
Qed.

Lemma SerialReceiveBuffer_ok_full_witness :
  List.length [7; 8] = 2%nat /\ 2%nat = 2%nat.
Proof.
  apply (SerialReceiveBuffer_ok_full
           (sample [true] [RdData [7]; RdData [8]] [])
           (with_rd_script []
              (with_io_script []
                 (with_drv (set_cc VTIME 1 (set_cc VMIN 0 blank_termios))
                    (with_settings (set_cc VTIME 1 (set_cc VMIN 0 blank_termios))
                       (sample [true] [RdData [7]; RdData [8]] [])))))
           2 2 100 [7; 8]).
  - simpl. lia.
  - lia.
  - reflexivity.
Defined.

(** X8.  When [SerialReceiveByte] does not return SERIAL_OK the caller's
    byte keeps the value it had; when it returns SERIAL_OK on an open port
    with a timeout that is not negative, the byte is the one byte read.
    (This is why [main] finds its old command in [cmd] after a turn without
    input.) *)
Theorem SerialReceiveByte_result (c timeout : Z) (s s' : state) (r c' : Z) :
  SerialReceiveByte c timeout s = Done (r, c') s' ->
  (r <> SERIAL_OK -> c' = c) /\
  (r = SERIAL_OK -> 0 <= fd s -> 0 <= timeout ->
   SerialReceiveBuffer 1 timeout s = Done (SERIAL_OK, [c'], 1%nat) s').
Proof.
  unfold SerialReceiveByte, bind, ret.
  destruct (SerialReceiveBuffer 1 timeout s) as [[[r1 fl] n] s1| |f] eqn:Hrecv;
    try discriminate.
  intros [= <- <- <-].
  pose proof (SerialReceiveBuffer_inv _ _ _ _ _ _ _ Hrecv)
    as (_ & _ & _ & _ & _ & _ & Hlt).
  split.
  - intros Hr. specialize (Hlt Hr ltac:(lia)).
    destruct fl; [reflexivity | cbn in Hlt; lia].
  - intros -> Hfd Ht. pose proof Hrecv as Hfull.
    rewrite SerialReceiveBuffer_open in Hfull by exact Hfd.
    destruct (SerialSetTimeout timeout s) as [r0 s0| |f0]; try discriminate.
    destruct (recv_loop timeout (rd_script s) [] 1 0)
      as [[[[r1 rs1] f1] n1]|] eqn:Hloop; [|discriminate].
    injection Hfull as -> -> -> _.
    pose proof (recv_loop_ok_full timeout _ Ht _ _ _ _ _ _ Hloop) as Hlen.
    apply recv_loop_inv in Hloop. destruct Hloop as (more & Hf & Hn & _).
    cbn in Hf, Hn, Hlen. subst fl n.
    destruct more as [|b [|b' more]]; try discriminate. reflexivity.
Qed.

Lemma SerialReceiveByte_result_witness :
  (SERIAL_ERR_TIMEOUT <> SERIAL_OK -> 0x55 = 0x55) /\
  (SERIAL_ERR_TIMEOUT = SERIAL_OK ->
   0 <= fd (sample [true] [RdData []] []) -> 0 <= 1 ->
   SerialReceiveBuffer 1 1 (sample [true] [RdData []] []) =
     Done (SERIAL_OK, [0x55], 1%nat)
       (with_rd_script []
          (with_io_script []
             (with_drv (set_cc VTIME 1 (set_cc VMIN 0 blank_termios))
                (with_settings (set_cc VTIME 1 (set_cc VMIN 0 blank_termios))
                   (sample [true] [RdData []] [])))))).
Proof.
  apply (SerialReceiveByte_result 0x55 1 (sample [true] [RdData []] [])).
  reflexivity.
Defined.

(** ** Pedals and the loop of [main] *)

Lemma stored_length (filled old : list Z) (k : nat) :
  (List.length filled <= k)%nat -> List.length old = k ->
  List.length (stored filled old) = k.
Proof.
  intros Hle Hold. unfold stored. rewrite length_app, length_drop. lia.
Qed.

(** X9.  When both payload bytes arrive, in whatever pieces, [ReadPedal]
    replaces the slot of its pedal by exactly these two bytes, prints
    nothing, leaves the other slot and the buttons alone, and consumes just
    the answers that carried the payload. *)
Theorem ReadPedal_stores (s : state) (pedal b0 b1 : Z) (ok : bool)
    (ios : list bool) (pre rest : list read_result) :
  in_exp pedal = true ->
  arrays_ok s ->
  0 <= fd s ->
  io_script s = ok :: ios ->
  rd_script s = pre ++ rest ->
  delivers pre [b0; b1] ->
  exists s',
    ReadPedal pedal s = Done tt s' /\
    exp s' !! Z.to_nat pedal = Some [b0; b1] /\
    (forall j : nat, j <> Z.to_nat pedal -> exp s' !! j = exp s !! j) /\
    btn s' = btn s /\
    console s' = console s /\
    rd_script s' = rest.
Proof.
  intros Hin (Hbtn & Hrows & Hrow) Hfd Hio Hrd Hd.
  destruct (SerialReceiveBuffer_delivers 2 0 s ok ios pre rest [b0; b1]
              Hfd Hio Hrd Hd eq_refl)
    as (s1 & Hpay & Hrd1 & _ & _ & Hexp1 & Hbtn1 & Hcon1).
  rewrite (ReadPedal_ok pedal s s1 [b0; b1] 2 Hin Hpay).
  eexists. split; [reflexivity|]. cbn [exp btn console rd_script with_exp].
  rewrite Hexp1.
  assert (Hp : (Z.to_nat pedal < 2)%nat).
  { unfold in_exp in Hin. apply andb_prop in Hin. destruct Hin as [H0 H2].
    apply Z.leb_le in H0. apply Z.ltb_lt in H2. lia. }
  destruct (lookup_lt_is_Some_2 (exp s) (Z.to_nat pedal) ltac:(lia)) as [old Hold].
  assert (Hlen : List.length old = 2%nat).
  { rewrite Forall_lookup in Hrow. exact (Hrow _ _ Hold). }
  split.
  - rewrite list_lookup_alter_eq, Hold. cbn. unfold stored.
    rewrite drop_ge by (cbn; lia). reflexivity.
  - split; [intros j Hj; apply list_lookup_alter_ne; congruence|].
    repeat split; assumption.
Qed.

Lemma ReadPedal_stores_witness :
  exists s',
    ReadPedal 1 (sample [true] [RdData [0xAB]; RdFail EINTR; RdData [0xCD]; RdData [1]] []) =
      Done tt s' /\
    exp s' !! Z.to_nat 1 = Some [0xAB; 0xCD] /\
    (forall j : nat, j <> Z.to_nat 1 ->
       exp s' !! j =
       exp (sample [true] [RdData [0xAB]; RdFail EINTR; RdData [0xCD]; RdData [1]] []) !! j) /\
    btn s' = btn (sample [true] [RdData [0xAB]; RdFail EINTR; RdData [0xCD]; RdData [1]] []) /\
    console s' =
      console (sample [true] [RdData [0xAB]; RdFail EINTR; RdData [0xCD]; RdData [1]] []) /\
    rd_script s' = [RdData [1]].
Proof.
  apply (ReadPedal_stores
           (sample [true] [RdData [0xAB]; RdFail EINTR; RdData [0xCD]; RdData [1]] [])
           1 0xAB 0xCD true [] [RdData [0xAB]; RdFail EINTR; RdData [0xCD]] [RdData [1]]).
  - reflexivity.
  - repeat split; repeat constructor.
  - simpl. lia.
  - reflexivity.
  - reflexivity.
  - apply (delivers_data [0xAB] _ [0xCD]); [discriminate|].
    apply delivers_eintr; [discriminate|].
    apply (delivers_data [0xCD] [] []); [discriminate | apply delivers_nil].
Defined.

(** The switch keeps the arrays in shape and the descriptor in place. *)
Lemma command_switch_arrays_ok (cmd : Z) (s s' : state) :
  arrays_ok s ->
  command_switch cmd s = Done tt s' ->
  arrays_ok s' /\ fd s' = fd s.
Proof.
  intros (Hbtn & Hrows & Hrow). rewrite command_switch_eq.
  destruct (Z.land cmd 0xF0 =? 0xE0).
  { unfold ReadPedal, bind. rewrite in_exp_land_1. cbn [negb].
    destruct (SerialReceiveBuffer 2 0 s) as [[[r fl] n] s1| |f1] eqn:Hrecv;
      try discriminate.
    apply SerialReceiveBuffer_inv in Hrecv.
    destruct Hrecv as (Hfd1 & Hexp1 & Hbtn1 & _ & Hle & _).
    assert (Hok : arrays_ok
                    (with_exp (alter (stored fl) (Z.to_nat (Z.land cmd 1)) (exp s1)) s1)).
    { unfold arrays_ok. cbn [btn exp with_exp].
      rewrite Hbtn1, Hexp1, length_alter.
      repeat split; try assumption.
      apply Forall_alter; [exact Hrow|].
      intros old _ Hold. apply stored_length; assumption. }
    destruct (r =? 0); intros [= <-]; (split; [exact Hok | exact Hfd1]). }
  destruct (Z.land cmd 0xF0 =? 0xF0).
  - unfold ReadButton.
    destruct (Z.land cmd 0x0F =? 0x0F).
    + intros [= <-]. split; [|reflexivity]. unfold arrays_ok. cbn [btn exp with_btn].
      split; [reflexivity | auto].
    + destruct (in_btn (Z.land cmd 0x0F)); [|discriminate].
      intros [= <-]. split; [|reflexivity]. unfold arrays_ok. cbn [btn exp with_btn].
      rewrite length_insert. auto.
  - intros [= <-]. split; [|reflexivity]. unfold arrays_ok. auto.
Qed.

(** X3.  Where the switch stores.  On a state whose arrays have their
    declared shape, a command byte either makes the switch store outside
    [btn], which happens on 0xFC, 0xFD and 0xFE only (at index 12, 13,
    14), or every store of the switch stays inside the arrays: when the
    switch completes, [btn] still has its twelve flags and [exp] its two
    slots of two bytes, and a pedal command has stored at most two bytes,
    from the start of the slot that the low bit selects. *)
Theorem command_switch_fault_only (cmd : Z) (s : state) :
  0 <= cmd < 256 ->
  arrays_ok s ->
  (forall f,
     command_switch cmd s = Undefined f ->
     (cmd = 0xFC \/ cmd = 0xFD \/ cmd = 0xFE) /\
     f = BtnOutOfBounds (cmd - 0xF0)) /\
  (forall s',
     command_switch cmd s = Done tt s' ->
     arrays_ok s' /\
     (Z.land cmd 0xF0 = 0xE0 ->
      exists filled,
        (List.length filled <= 2)%nat /\
        (Z.to_nat (cmd mod 2) < 2)%nat /\
        exp s' = alter (stored filled) (Z.to_nat (cmd mod 2)) (exp s)) /\
     (Z.land cmd 0xF0 <> 0xE0 -> exp s' = exp s)).
Proof.
  intros Hc Hok.
  destruct (byte_nibbles cmd Hc) as (Hhi & Hlo & Hbit).
  pose proof (Z.div_mod cmd 16 ltac:(lia)) as Hdm.
  pose proof (Z.mod_pos_bound cmd 16 ltac:(lia)) as Hb.
  pose proof (Z.mod_pos_bound cmd 2 ltac:(lia)) as Hb2.
  split.
  - intros f. rewrite command_switch_eq.
    destruct (Z.eqb_spec (Z.land cmd 0xF0) 0xE0) as [_|_].
    { intros H. exfalso. exact (ReadPedal_defined _ _ _ (in_exp_land_1 cmd) H). }
    destruct (Z.eqb_spec (Z.land cmd 0xF0) 0xF0) as [HF|_]; [|discriminate].
    rewrite Hhi in HF. rewrite Hlo. unfold ReadButton, in_btn.
    destruct (Z.eqb_spec (cmd mod 16) 15) as [|Hne]; [discriminate|].
    destruct (Z.leb_spec 0 (cmd mod 16)) as [_|]; [|lia].
    destruct (Z.ltb_spec (cmd mod 16) 12) as [|Hge]; [discriminate|].
    cbn [andb]. intros [= <-]. split; [lia | f_equal; lia].
  - intros s' Hrun.
    split; [exact (proj1 (command_switch_arrays_ok cmd s s' Hok Hrun))|].
    rewrite command_switch_eq in Hrun.
    destruct (Z.eqb_spec (Z.land cmd 0xF0) 0xE0) as [HE|HE].
    + split; [intros _ | contradiction].
      unfold ReadPedal, bind in Hrun. rewrite in_exp_land_1 in Hrun.
      cbn [negb] in Hrun.
      destruct (SerialReceiveBuffer 2 0 s) as [[[r fl] n] s1| |f1] eqn:Hrecv;
        try discriminate.
      apply SerialReceiveBuffer_inv in Hrecv.
      destruct Hrecv as (_ & Hexp1 & _ & _ & Hle & _).
      exists fl. rewrite <- Hbit, <- Hexp1.
      split; [exact Hle|]. split; [rewrite Hbit; lia|].
      destruct (r =? 0); injection Hrun as <-; reflexivity.
    + split; [contradiction | intros _].
      destruct (Z.eqb_spec (Z.land cmd 0xF0) 0xF0) as [_|_].
      * unfold ReadButton in Hrun.
        destruct (Z.land cmd 0x0F =? 0x0F); [injection Hrun as <-; reflexivity|].
        destruct (in_btn (Z.land cmd 0x0F)); [|discriminate].
        injection Hrun as <-. reflexivity.
      * injection Hrun as <-. reflexivity.
Qed.

Lemma command_switch_fault_only_witness :
  ((0xFD = 0xFC \/ 0xFD = 0xFD \/ 0xFD = 0xFE) /\
   BtnOutOfBounds 13 = BtnOutOfBounds (0xFD - 0xF0)) /\
  exists s',
    command_switch 0xE1 (sample [true] [RdData [7]; RdFail 11] []) = Done tt s' /\
    arrays_ok s' /\
    (Z.land 0xE1 0xF0 = 0xE0 ->
     exists filled,
       (List.length filled <= 2)%nat /\
       (Z.to_nat (0xE1 mod 2) < 2)%nat /\
       exp s' = alter (stored filled) (Z.to_nat (0xE1 mod 2))
                  (exp (sample [true] [RdData [7]; RdFail 11] []))) /\
    (Z.land 0xE1 0xF0 <> 0xE0 ->
     exp s' = exp (sample [true] [RdData [7]; RdFail 11] [])).
Proof.
  split.
  - apply (proj1 (command_switch_fault_only 0xFD (sample [] [] [])
                    ltac:(lia) ltac:(repeat split; repeat constructor))
             (BtnOutOfBounds 13)).
    reflexivity.
  - eexists. split; [vm_compute; reflexivity|].
    apply (proj2 (command_switch_fault_only 0xE1
                    (sample [true] [RdData [7]; RdFail 11] [])
                    ltac:(lia) ltac:(repeat split; repeat constructor))).
    vm_compute. reflexivity.
Defined.

Lemma main_iteration_arrays_ok (cmd c : Z) (s s' : state) :
  arrays_ok s ->
  main_iteration cmd s = Done c s' ->
  arrays_ok s' /\ fd s' = fd s.
Proof.
  intros Hok. unfold main_iteration, SerialReceiveByte, bind at 1 2.
  destruct (SerialReceiveBuffer 1 1 s) as [[[r fl] n] s1| |f1] eqn:Hrecv;
    try discriminate.
  apply SerialReceiveBuffer_inv in Hrecv.
  destruct Hrecv as (Hfd1 & Hexp1 & Hbtn1 & _).
  assert (Hok1 : arrays_ok s1).
  { unfold arrays_ok in *. rewrite Hexp1, Hbtn1. exact Hok. }
  unfold ret at 1. cbv beta iota.
  set (c1 := match stored fl [cmd] with b :: _ => b | [] => cmd end).
  unfold bind.
  assert (Hmid : forall s2, arrays_ok s2 -> fd s2 = fd s ->
            match command_switch c1 s2 with
            | Done _ s3 => Done c1 (print (OutRender c1 (exp s3) (btn s3)) s3)
            | Starved => Starved
            | Undefined f => Undefined f
            end = Done c s' -> arrays_ok s' /\ fd s' = fd s).
  { intros s2 Hok2 Hfd2.
    destruct (command_switch c1 s2) as [[] s3| |f3] eqn:Hsw; try discriminate.
    apply (command_switch_arrays_ok _ _ _ Hok2) in Hsw.
    destruct Hsw as [Hok3 Hfd3]. intros [= <- <-].
    split; [exact Hok3 | cbn; congruence]. }
  destruct (r =? 0).
  - unfold ret. apply Hmid; assumption.
  - apply Hmid; [exact Hok1 | exact Hfd1].
Qed.

(** X10.  The loop of [main] keeps the arrays in shape: as many turns as
    it completes, on whatever the driver delivers, [btn] still has twelve
    elements and [exp] two slots of two bytes, and [fd] is untouched. *)
Theorem main_loop_arrays_ok (turns : nat) :
  forall (cmd c : Z) (s s' : state),
    arrays_ok s ->
    main_loop turns cmd s = Done c s' ->
    arrays_ok s' /\ fd s' = fd s.
Proof.
  induction turns as [|n IH]; intros cmd c s s' Hok.
  - cbn. intros [= <- <-]. split; [exact Hok | reflexivity].
  - cbn [main_loop]. unfold bind.
    destruct (main_iteration cmd s) as [c1 s1| |f1] eqn:Hturn; try discriminate.
    apply (main_iteration_arrays_ok _ _ _ _ Hok) in Hturn.
    destruct Hturn as [Hok1 Hfd1]. intros H.
    apply (IH _ _ _ _ Hok1) in H. destruct H as [Hok' Hfd'].
    split; [exact Hok' | congruence].
Qed.

Lemma main_loop_arrays_ok_witness :
  exists s',
    main_loop 3 0 (sample [true; true; true; true]
                     [RdData [0xE1]; RdData [9]; RdFail 5; RdData [0xF2]; RdData []] []) =
      Done 0xF2 s' /\
    arrays_ok s' /\
    fd s' = fd (sample [true; true; true; true]
                  [RdData [0xE1]; RdData [9]; RdFail 5; RdData [0xF2]; RdData []] []).
Proof.
  eexists. split; [vm_compute; reflexivity|].
  eapply (main_loop_arrays_ok 3 0 0xF2
            (sample [true; true; true; true]
               [RdData [0xE1]; RdData [9]; RdFail 5; RdData [0xF2]; RdData []] [])).
  - repeat split; repeat constructor.
  - vm_compute. reflexivity.
Defined.

(** X11.  A turn that receives a byte below 0xE0 changes neither the
    pedal slots nor the buttons: it only prints the state with the new
    command byte. *)
Theorem main_iteration_ignored (s : state) (cmd0 c : Z) (ok : bool)
    (ios : list bool) (pre rest : list read_result) :
  0 <= fd s ->
  io_script s = ok :: ios ->
  rd_script s = pre ++ rest ->
  delivers pre [c] ->
  0 <= c < 0xE0 ->
  exists s',
    main_iteration cmd0 s = Done c s' /\
    exp s' = exp s /\
    btn s' = btn s /\
    rd_script s' = rest /\
    console s' = console s ++ [OutRender c (exp s) (btn s)].
Proof.
  intros Hfd Hio Hrd Hd Hc.
  destruct (SerialReceiveBuffer_delivers 1 1 s ok ios pre rest [c]
              Hfd Hio Hrd Hd eq_refl)
    as (s1 & Hcmd & Hrd1 & _ & _ & Hexp1 & Hbtn1 & Hcon1).
  rewrite (main_iteration_command cmd0 c s s1 Hcmd).
  unfold bind. rewrite command_switch_eq.
  destruct (byte_nibbles c ltac:(lia)) as (Hhi & _ & _).
  pose proof (Z.div_mod c 16 ltac:(lia)) as Hdm.
  pose proof (Z.mod_pos_bound c 16 ltac:(lia)) as Hb.
  destruct (Z.eqb_spec (Z.land c 0xF0) 0xE0) as [|_]; [lia|].
  destruct (Z.eqb_spec (Z.land c 0xF0) 0xF0) as [|_]; [lia|].
  unfold ret. eexists. split; [reflexivity|].
  cbn [exp btn rd_script console print].
  rewrite Hexp1, Hbtn1, Hcon1. repeat split. exact Hrd1.
Qed.

Lemma main_iteration_ignored_witness :
  exists s',
    main_iteration 0xF3 (sample [true] [RdFail EINTR; RdData [0x41]; RdData [2]] []) =
      Done 0x41 s' /\
    exp s' = exp (sample [true] [RdFail EINTR; RdData [0x41]; RdData [2]] []) /\
    btn s' = btn (sample [true] [RdFail EINTR; RdData [0x41]; RdData [2]] []) /\
    rd_script s' = [RdData [2]] /\
    console s' =
      console (sample [true] [RdFail EINTR; RdData [0x41]; RdData [2]] []) ++
      [OutRender 0x41
         (exp (sample [true] [RdFail EINTR; RdData [0x41]; RdData [2]] []))
         (btn (sample [true] [RdFail EINTR; RdData [0x41]; RdData [2]] []))].
Proof.
  apply (main_iteration_ignored
           (sample [true] [RdFail EINTR; RdData [0x41]; RdData [2]] [])
           0xF3 0x41 true [] [RdFail EINTR; RdData [0x41]] [RdData [2]]).
  - simpl. lia.
  - reflexivity.
  - reflexivity.
  - apply delivers_eintr; [discriminate|].
    apply (delivers_data [0x41] [] []); [discriminate | apply delivers_nil].
  - lia.
Defined.

(** X12.  A turn in which no command byte arrives (the read returns zero
    bytes, or fails) prints the error and then runs the switch again on
    the command byte of the turn before, which [cmd] still holds. *)
Theorem main_iteration_no_input (s : state) (cmd0 err : Z) (ok : bool)
    (ios : list bool) (first : read_result) (rest : list read_result) :
  0 <= fd s ->
  io_script s = ok :: ios ->
  rd_script s = first :: rest ->
  (first = RdData [] /\ err = SERIAL_ERR_TIMEOUT) \/
  (exists e, first = RdFail e /\ e <> EINTR /\ err = SERIAL_ERR_READ) ->
  exists s1,
    main_iteration cmd0 s =
      (command_switch cmd0 ;;;
       fun s' => Done cmd0 (print (OutRender cmd0 (exp s') (btn s')) s'))
        (print (OutCmdError err) s1) /\
    exp s1 = exp s /\ btn s1 = btn s /\ console s1 = console s /\
    rd_script s1 = rest /\ io_script s1 = ios.
Proof.
  intros Hfd Hio Hrd Hfirst.
  destruct (SerialSetTimeout_returns 1 s ok ios Hfd Hio) as (s0 & Hset & Hios).
  pose proof (SerialSetTimeout_frame _ _ _ _ Hset)
    as (_ & Hexp & Hbtn & _ & _ & _ & Hcon & _).
  assert (Hrecv : SerialReceiveBuffer 1 1 s =
                  Done (err, [], 0%nat) (with_rd_script rest s0)).
  { rewrite SerialReceiveBuffer_open, Hset, Hrd by exact Hfd.
    destruct Hfirst as [[-> ->]|(e & -> & He & ->)]; cbn [recv_loop].
    - reflexivity.
    - destruct (Z.eqb_spec e EINTR) as [|_]; [contradiction | reflexivity]. }
  assert (Herr : (err =? 0) = false).
  { destruct Hfirst as [[_ ->]|(e & _ & _ & ->)]; reflexivity. }
  exists (with_rd_script rest s0).
  split.
  - unfold main_iteration, SerialReceiveByte, bind at 1 2.
    rewrite Hrecv. unfold ret at 1. cbv beta iota.
    change (match stored [] [cmd0] with b :: _ => b | [] => cmd0 end) with cmd0.
    rewrite Herr. reflexivity.
  - cbn [exp btn console rd_script io_script with_rd_script]. auto.
Qed.

Lemma main_iteration_no_input_witness :
  exists s1,
    main_iteration 0xF3 (sample [true] [RdData []; RdData [2]] []) =
      (command_switch 0xF3 ;;;
       fun s' => Done 0xF3 (print (OutRender 0xF3 (exp s') (btn s')) s'))
        (print (OutCmdError SERIAL_ERR_TIMEOUT) s1) /\
    exp s1 = exp (sample [true] [RdData []; RdData [2]] []) /\
    btn s1 = btn (sample [true] [RdData []; RdData [2]] []) /\
    console s1 = console (sample [true] [RdData []; RdData [2]] []) /\
    rd_script s1 = [RdData [2]] /\ io_script s1 = [].
Proof.
  apply (main_iteration_no_input (sample [true] [RdData []; RdData [2]] [])
           0xF3 SERIAL_ERR_TIMEOUT true [] (RdData []) [RdData [2]]).
  - simpl. lia.
  - reflexivity.
  - reflexivity.
  - left. split; reflexivity.
Defined.

(** What X12 means for a pedal command: the bytes that arrive after the
    silent turn are taken as a payload for the old command. *)
Example main_loop_stale_pedal :
  exists s',
    main_loop 2 0
      (sample [true; true; true; true]
         [RdData [0xE0]; RdData [1; 2]; RdData []; RdData [0xF3; 0x41]] []) =
      Done 0xE0 s' /\
    exp s' = [[0xF3; 0x41]; [0; 0]] /\
    btn s' = replicate 12 0.
Proof. eexists. split; [vm_compute; reflexivity|]. split; reflexivity. Qed.

(** ** Opening *)

(** X13.  [SerialOpen] stores the answer of [open] in [fd] whatever
    happens next.  When [open] fails the call returns SERIAL_ERR_OPEN and
    asks the driver nothing.  When [open] succeeds the call reads the
    driver's configuration into [settings] and returns SERIAL_OK; if that
    read fails it returns SERIAL_ERR_OPEN, [settings] is unchanged, and
    [fd] still holds the descriptor. *)
Theorem SerialOpen_outcome (opened : Z) (s : state) :
  (opened < 0 ->
   SerialOpen opened s = Done SERIAL_ERR_OPEN (with_fd opened s)) /\
  (forall ok ios,
     0 <= opened ->
     io_script s = ok :: ios ->
     exists s',
       SerialOpen opened s =
         Done (if ok then SERIAL_OK else SERIAL_ERR_OPEN) s' /\
       fd s' = opened /\
       settings s' = (if ok then drv s else settings s) /\
       drv s' = drv s /\
       io_script s' = ios).
Proof.
  split.
  - intros Hneg. unfold SerialOpen. cbn [fd with_fd].
    destruct (Z.ltb_spec opened 0) as [_|]; [reflexivity | lia].
  - intros ok ios Hpos Hio. unfold SerialOpen, bind, ioctl, ret.
    cbn [fd with_fd io_script].
    destruct (Z.ltb_spec opened 0) as [|_]; [lia|].
    rewrite Hio. destruct ok; cbn; eexists; repeat split.
Qed.

Lemma SerialOpen_outcome_witness :
  SerialOpen (-1) (sample [true] [] []) =
    Done SERIAL_ERR_OPEN (with_fd (-1) (sample [true] [] [])) /\
  exists s',
    SerialOpen 4 (sample [false] [] []) = Done SERIAL_ERR_OPEN s' /\
    fd s' = 4 /\
    settings s' = settings (sample [false] [] []) /\
    drv s' = drv (sample [false] [] []) /\
    io_script s' = [].
Proof.
  split.
  - apply (proj1 (SerialOpen_outcome (-1) (sample [true] [] []))). lia.
  - apply (proj2 (SerialOpen_outcome 4 (sample [false] [] [])) false []).
    + lia.
    + reflexivity.
Defined.

(** X14.  After a [SerialOpen] that failed in [open], the guarded calls
    are refused and the driver is left alone; after one that failed only in
    reading the configuration they are not: [fd] passes the guard, and a
    [SerialSendByte] that the driver accepts goes out on the wire. *)
Theorem SerialOpen_failure_then_calls (opened b : Z) (s s1 : state) :
  SerialOpen opened s = Done SERIAL_ERR_OPEN s1 ->
  (opened < 0 ->
   SerialSendByte b s1 = Done SERIAL_ERR_WRITE s1 /\
   (forall len timeout,
      SerialReceiveBuffer len timeout s1 = Done (SERIAL_ERR_READ, [], len) s1) /\
   (forall baud format rtscts,
      SerialInit baud format rtscts s1 = Done SERIAL_ERR_INIT s1) /\
   SerialFlush s1 = Done SERIAL_ERR s1 /\
   SerialDrain s1 = Done SERIAL_ERR s1) /\
  (0 <= opened ->
   forall n rest,
     wr_script s = WrAccept (S n) :: rest ->
     SerialSendByte b s1 = Done SERIAL_OK (with_wr rest (wire s ++ [b]) s1)).
Proof.
  intros Hopen. split.
  - intros Hneg.
    assert (Hfd : (fd s1 <? 0) = true).
    { unfold SerialOpen in Hopen. cbn [fd with_fd] in Hopen.
      destruct (Z.ltb_spec opened 0) as [_|]; [|lia].
      injection Hopen as <-. cbn. apply Z.ltb_lt. exact Hneg. }
    unfold SerialSendByte, SerialSendBuffer, SerialReceiveBuffer, SerialInit,
      SerialFlush, SerialDrain.
    rewrite Hfd. repeat split.
  - intros Hpos n rest Hws.
    unfold SerialOpen, bind, ioctl, ret in Hopen. cbn [fd with_fd io_script] in Hopen.
    destruct (Z.ltb_spec opened 0) as [|_]; [lia|].
    destruct (io_script s) as [|[] ios]; try discriminate.
    cbn in Hopen. injection Hopen as <-.
    unfold SerialSendByte, SerialSendBuffer. cbn [fd with_io_script with_fd].
    destruct (Z.ltb_spec opened 0) as [|_]; [lia|].
    cbn [wr_script wire with_io_script with_fd]. rewrite Hws.
    cbn [send_loop].
    rewrite take_ge, drop_ge by (cbn [List.length]; lia).
    rewrite send_loop_done. reflexivity.
Qed.

Lemma SerialOpen_failure_then_calls_witness :
  (SerialSendByte 0x55 (with_fd (-1) (sample [true] [] [WrAccept 1])) =
     Done SERIAL_ERR_WRITE (with_fd (-1) (sample [true] [] [WrAccept 1])) /\
   (forall len timeout,
      SerialReceiveBuffer len timeout (with_fd (-1) (sample [true] [] [WrAccept 1])) =
      Done (SERIAL_ERR_READ, [], len) (with_fd (-1) (sample [true] [] [WrAccept 1]))) /\
   (forall baud format rtscts,
      SerialInit baud format rtscts (with_fd (-1) (sample [true] [] [WrAccept 1])) =
      Done SERIAL_ERR_INIT (with_fd (-1) (sample [true] [] [WrAccept 1]))) /\
   SerialFlush (with_fd (-1) (sample [true] [] [WrAccept 1])) =
     Done SERIAL_ERR (with_fd (-1) (sample [true] [] [WrAccept 1])) /\
   SerialDrain (with_fd (-1) (sample [true] [] [WrAccept 1])) =
     Done SERIAL_ERR (with_fd (-1) (sample [true] [] [WrAccept 1]))) /\
  SerialSendByte 0x55
    (with_io_script [] (with_fd 4 (sample [false] [] [WrAccept 1]))) =
  Done SERIAL_OK
    (with_wr [] (wire (sample [false] [] [WrAccept 1]) ++ [0x55])
       (with_io_script [] (with_fd 4 (sample [false] [] [WrAccept 1])))).
Proof.
  split.
  - apply (proj1 (SerialOpen_failure_then_calls (-1) 0x55
                    (sample [true] [] [WrAccept 1])
                    (with_fd (-1) (sample [true] [] [WrAccept 1]))
                    eq_refl)).
    lia.
  - apply (proj2 (SerialOpen_failure_then_calls 4 0x55
                    (sample [false] [] [WrAccept 1])
                    (with_io_script [] (with_fd 4 (sample [false] [] [WrAccept 1])))
                    eq_refl) ltac:(lia) 0%nat []).
    reflexivity.
Defined.

(** ** Sending *)

(** X15.  On every return of [SerialSendBuffer], what has gone out on the
    wire is what was there before followed by a leading part of the
    buffer, in order: no byte is sent twice, skipped or reordered, however
    the driver splits the writes.  Nothing but the wire and the pending
    answers of [write] changes. *)
Theorem SerialSendBuffer_prefix (buf : list Z) (s s' : state) (r : Z) :
  SerialSendBuffer buf s = Done r s' ->
  exists k : nat,
    wire s' = wire s ++ take k buf /\
    (r = SERIAL_OK -> take k buf = buf) /\
    s' = with_wr (wr_script s') (wire s') s /\
    exists used, wr_script s = used ++ wr_script s'.
Proof.
  assert (Hloop : forall ws b sent r0 ws' sent',
            send_loop ws b sent = Some (r0, ws', sent') ->
            exists k : nat,
              sent' = sent ++ take k b /\
              (r0 = SERIAL_OK -> take k b = b) /\
              exists used, ws = used ++ ws').
  { induction ws as [|a ws IH]; intros b sent r0 ws' sent'.
    - destruct b; cbn; [|discriminate]. intros [= <- <- <-].
      exists 0%nat. rewrite app_nil_r. repeat split. exists []. reflexivity.
    - destruct b as [|x b].
      { cbn. intros [= <- <- <-]. exists 0%nat. rewrite app_nil_r.
        repeat split. exists []. reflexivity. }
      cbn [send_loop]. destruct a as [n|e].
      + intros H. apply IH in H. destruct H as (k & -> & Hok & used & ->).
        exists (n + k)%nat. rewrite <- app_assoc, take_take_drop.
        split; [reflexivity|]. split.
        * intros Hr. specialize (Hok Hr).
          rewrite <- take_take_drop, Hok. apply take_drop.
        * exists (WrAccept n :: used). reflexivity.
      + destruct (e =? EINTR).
        * intros H. apply IH in H. destruct H as (k & -> & Hok & used & ->).
          exists k. repeat split; [exact Hok|].
          exists (WrFail e :: used). reflexivity.
        * intros [= <- <- <-]. exists 0%nat. rewrite app_nil_r.
          split; [reflexivity|]. split; [discriminate|].
          exists [WrFail e]. reflexivity. }
  unfold SerialSendBuffer. destruct (fd s <? 0).
  - intros [= <- <-]. exists 0%nat. rewrite app_nil_r.
    split; [reflexivity|]. split; [discriminate|].
    split; [destruct s; reflexivity | exists []; reflexivity].
  - destruct (send_loop (wr_script s) buf (wire s)) as [[[r1 ws] sent]|] eqn:H;
      [|discriminate].
    intros [= <- <-]. apply Hloop in H. destruct H as (k & -> & Hok & used & Hused).
    exists k. cbn [wire wr_script with_wr].
    repeat split; [exact Hok | exists used; exact Hused].
Qed.

Lemma SerialSendBuffer_prefix_witness :
  exists k : nat,
    wire (with_wr [WrAccept 9] [1; 2] (sample [] [] [WrAccept 2; WrFail 5; WrAccept 9])) =
      wire (sample [] [] [WrAccept 2; WrFail 5; WrAccept 9]) ++ take k [1; 2; 3] /\
    (SERIAL_ERR_WRITE = SERIAL_OK -> take k [1; 2; 3] = [1; 2; 3]) /\
    with_wr [WrAccept 9] [1; 2] (sample [] [] [WrAccept 2; WrFail 5; WrAccept 9]) =
      with_wr
        (wr_script (with_wr [WrAccept 9] [1; 2]
                      (sample [] [] [WrAccept 2; WrFail 5; WrAccept 9])))
        (wire (with_wr [WrAccept 9] [1; 2]
                 (sample [] [] [WrAccept 2; WrFail 5; WrAccept 9])))
        (sample [] [] [WrAccept 2; WrFail 5; WrAccept 9]) /\
    exists used,
      wr_script (sample [] [] [WrAccept 2; WrFail 5; WrAccept 9]) =
      used ++ wr_script (with_wr [WrAccept 9] [1; 2]
                           (sample [] [] [WrAccept 2; WrFail 5; WrAccept 9])).
Proof.
  apply (SerialSendBuffer_prefix [1; 2; 3]
           (sample [] [] [WrAccept 2; WrFail 5; WrAccept 9])
           (with_wr [WrAccept 9] [1; 2] (sample [] [] [WrAccept 2; WrFail 5; WrAccept 9]))
           SERIAL_ERR_WRITE).
  reflexivity.
Defined.

(** X16.  A [write] that takes no byte is neither an error nor an end: the
    loop calls [write] again for the same remainder, as often as the
    driver answers so. *)
Theorem SerialSendBuffer_zero_writes (buf : list Z) (s : state) (n : nat)
    (rest : list write_result) :
  0 <= fd s ->
  buf <> [] ->
  wr_script s = replicate n (WrAccept 0) ++ rest ->
  SerialSendBuffer buf s = SerialSendBuffer buf (with_wr rest (wire s) s).
Proof.
  intros Hfd Hbuf Hws. unfold SerialSendBuffer. cbn [fd wr_script wire with_wr].
  open_guard. rewrite Hws.
  assert (Hloop : send_loop (replicate n (WrAccept 0) ++ rest) buf (wire s) =
                  send_loop rest buf (wire s)).
  { clear Hws. induction n as [|n IH]; [reflexivity|].
    destruct buf as [|b buf]; [congruence|].
    cbn [replicate app send_loop take drop]. rewrite app_nil_r. exact IH. }
  rewrite Hloop.
  destruct (send_loop rest buf (wire s)) as [[[r ws] sent]|]; reflexivity.
Qed.

Lemma SerialSendBuffer_zero_writes_witness :
  SerialSendBuffer [1; 2] (sample [] [] [WrAccept 0; WrAccept 0; WrAccept 2]) =
  SerialSendBuffer [1; 2]
    (with_wr [WrAccept 2] (wire (sample [] [] [WrAccept 0; WrAccept 0; WrAccept 2]))
       (sample [] [] [WrAccept 0; WrAccept 0; WrAccept 2])).
Proof.
  apply (SerialSendBuffer_zero_writes [1; 2]
           (sample [] [] [WrAccept 0; WrAccept 0; WrAccept 2]) 2 [WrAccept 2]).
  - simpl. lia.
  - discriminate.
  - reflexivity.
Defined.

(** ** Line configuration *)

Lemma datasize_code (c : ascii) (cflags v : Z) :
  datasize c cflags = Some v -> v = Z.lor cflags (data_code c).
Proof.
  destruct c as [[] [] [] [] [] [] [] []]; cbn; try discriminate;
    intros [= <-]; try reflexivity.
Qed.

Lemma parity_code_spec (c : ascii) (cflags v : Z) :
  parity c cflags = Some v -> v = Z.lor cflags (parity_code c).
Proof.
  destruct c as [[] [] [] [] [] [] [] []]; cbn; try discriminate;
    intros [= <-]; rewrite ?Z.lor_0_r, <- ?Z.lor_assoc; reflexivity.
Qed.

Lemma stopbit_code (c : ascii) (cflags v : Z) :
  stopbit c cflags = Some v -> v = Z.lor cflags (stop_code c).
Proof.
  destruct c as [[] [] [] [] [] [] [] []]; cbn; try discriminate;
    intros [= <-]; rewrite ?Z.lor_0_r; reflexivity.
Qed.

Lemma baudrate_named (baud cflags speed : Z) :
  baudrate baud cflags speed =
  match named_baud baud with
  | Some code => (Z.lor cflags code, speed)
  | None => (Z.lor (Z.ldiff cflags CBAUD) BOTHER, to_uint baud)
  end.
Proof.
  unfold baudrate, named_baud.
  repeat match goal with
         | |- context [baud =? ?k] => destruct (baud =? k); [reflexivity|]
         end.
  reflexivity.
Qed.

(** What a successful [SerialInit] has handed to the driver. *)
Lemma SerialInit_sent (baud rtscts : Z) (format : option string) (s s' : state) :
  SerialInit baud format rtscts s = Done SERIAL_OK s' ->
  exists d p t,
    format = Some (String d (String p (String t EmptyString))) /\
    0 <= fd s /\
    settings s' = drv s' /\
    c_iflag (drv s') = IGNPAR /\
    c_ispeed (drv s') = c_ospeed (drv s') /\
    let cf := Z.lor (c_cflag (settings s)) (format_bits d p t) in
    let cf' := fst (baudrate baud cf 0) in
    c_cflag (drv s') = (if rtscts =? 0 then cf' else Z.lor cf' CRTSCTS) /\
    c_ospeed (drv s') = snd (baudrate baud cf 0).
Proof.
  unfold SerialInit.
  destruct (Z.ltb_spec (fd s) 0) as [|Hfd]; [discriminate|].
  destruct format as [[|d [|p [|t [|x f]]]]|]; try (cbn; discriminate).
  cbn [String.length Nat.eqb negb char_at String.get].
  set (cf0 := Z.lor (c_cflag (settings s)) (Z.lor CLOCAL CREAD)).
  destruct (datasize d cf0) as [cf1|] eqn:H1; [|discriminate].
  destruct (parity p cf1) as [cf2|] eqn:H2; [|discriminate].
  destruct (stopbit t cf2) as [cf3|] eqn:H3; [|discriminate].
  apply datasize_code in H1. apply parity_code_spec in H2.
  apply stopbit_code in H3.
  assert (Hcf : cf3 = Z.lor (c_cflag (settings s)) (format_bits d p t)).
  { subst cf3 cf2 cf1 cf0. unfold format_bits.
    rewrite !Z.lor_assoc. reflexivity. }
  rewrite Hcf. cbv zeta.
  destruct (baudrate baud (Z.lor (c_cflag (settings s)) (format_bits d p t)) 0)
    as [cf4 speed] eqn:Hb.
  assert (Hlt : (fd s <? 0) = false) by (apply Z.ltb_ge; lia).
  unfold bind, ioctl, SerialFlush, tcflush, ret.
  cbn [fd with_settings io_script with_io_script with_drv]. rewrite Hlt.
  destruct (io_script s) as [|[] ios]; [discriminate | | discriminate].
  cbn [Z.eqb negb fd with_settings io_script with_io_script with_drv].
  rewrite Hlt.
  destruct ios as [|[] ios]; [discriminate | | discriminate].
  cbn [Z.eqb negb fd with_settings io_script with_io_script with_drv].
  rewrite Hlt. intros [= <-]. exists d, p, t. cbn. rewrite ?Hb.
  repeat split. exact Hfd.
Qed.

Lemma format_bits_land_CBAUD (d p t : ascii) :
  Z.land (format_bits d p t) CBAUD = 0.
Proof.
  unfold format_bits, data_code, parity_code, stop_code.
  destruct (Ascii.eqb d "5"), (Ascii.eqb d "6"), (Ascii.eqb d "7"),
    (Ascii.eqb d "8"), (Ascii.eqb p "O"), (Ascii.eqb p "E"),
    (Ascii.eqb t "2"); reflexivity.
Qed.

Lemma format_bits_outside_CBAUD (d p t : ascii) (i : Z) :
  Z.testbit (format_bits d p t) i = true -> Z.testbit CBAUD i = false.
Proof.
  intros H. pose proof (format_bits_land_CBAUD d p t) as Hz.
  apply (f_equal (fun z => Z.testbit z i)) in Hz.
  rewrite Z.land_spec, H, Z.bits_0 in Hz. exact Hz.
Qed.

(** Bits outside the baud field survive the baud and handshake steps. *)
Lemma cflag_keeps (baud rtscts cf : Z) (i : Z) :
  Z.testbit cf i = true ->
  Z.testbit CBAUD i = false ->
  Z.testbit (if rtscts =? 0 then fst (baudrate baud cf 0)
             else Z.lor (fst (baudrate baud cf 0)) CRTSCTS) i = true.
Proof.
  intros Hbit Hout. rewrite baudrate_named.
  assert (Hnew : Z.testbit
            (fst match named_baud baud with
                 | Some code => (Z.lor cf code, 0)
                 | None => (Z.lor (Z.ldiff cf CBAUD) BOTHER, to_uint baud)
                 end) i = true).
  { destruct (named_baud baud); cbn [fst].
    - rewrite Z.lor_spec, Hbit. reflexivity.
    - rewrite Z.lor_spec, Z.ldiff_spec, Hbit, Hout. reflexivity. }
  destruct (rtscts =? 0); [exact Hnew|].
  rewrite Z.lor_spec, Hnew. reflexivity.
Qed.

(** X17.  A successful [SerialInit] never clears a flag: every bit that
    was set in [settings.c_cflag], the baud field (CBAUD) apart, is set in
    the configuration handed to the driver.  A character size, parity or
    handshake flag that was on stays on whatever the format asks for. *)
Theorem SerialInit_keeps_flags (baud rtscts : Z) (format : option string)
    (s s' : state) (i : Z) :
  SerialInit baud format rtscts s = Done SERIAL_OK s' ->
  Z.testbit (c_cflag (settings s)) i = true ->
  Z.testbit CBAUD i = false ->
  Z.testbit (c_cflag (drv s')) i = true.
Proof.
  intros H Hold Hout. apply SerialInit_sent in H.
  destruct H as (d & p & t & _ & _ & _ & _ & _ & Hcf & _).
  cbv zeta in Hcf. rewrite Hcf.
  apply cflag_keeps; [|exact Hout].
  rewrite Z.lor_spec, Hold. reflexivity.
Qed.

Lemma SerialInit_keeps_flags_witness :
  exists s',
    SerialInit 9600 (Some "5N1"%string) 0
      (with_settings (Termios2 0 0 CS8 0 0 (replicate NCCS 0) 0 0)
         (sample [true; true] [] [])) = Done SERIAL_OK s' /\
    Z.testbit (c_cflag (drv s')) 5 = true.
Proof.
  eexists. split; [vm_compute; reflexivity|].
  eapply (SerialInit_keeps_flags 9600 0 (Some "5N1"%string)
            (with_settings (Termios2 0 0 CS8 0 0 (replicate NCCS 0) 0 0)
               (sample [true; true] [] [])) _ 5).
  - vm_compute. reflexivity.
  - reflexivity.
  - reflexivity.
Defined.

(** X18.  The flags a format asks for are set in the configuration a
    successful [SerialInit] hands to the driver: CLOCAL and CREAD, the
    character size, PARENB for even parity, PARENB and PARODD for odd
    parity, CSTOPB for two stop bits, and CRTSCTS when [rtscts] is not 0. *)
Theorem SerialInit_sets_format_bits (baud rtscts : Z) (d p t : ascii)
    (s s' : state) (i : Z) :
  SerialInit baud (Some (String d (String p (String t EmptyString)))) rtscts s =
    Done SERIAL_OK s' ->
  (Z.testbit (format_bits d p t) i = true ->
   Z.testbit (c_cflag (drv s')) i = true) /\
  (rtscts <> 0 -> Z.testbit CRTSCTS i = true ->
   Z.testbit (c_cflag (drv s')) i = true).
Proof.
  intros H. apply SerialInit_sent in H.
  destruct H as (d' & p' & t' & [= <- <- <-] & _ & _ & _ & _ & Hcf & _).
  cbv zeta in Hcf. rewrite Hcf. split.
  - intros Hbit. apply cflag_keeps.
    + rewrite Z.lor_spec, Hbit. apply orb_true_r.
    + exact (format_bits_outside_CBAUD d p t i Hbit).
  - intros Hr Hbit. destruct (Z.eqb_spec rtscts 0) as [|_]; [contradiction|].
    rewrite Z.lor_spec, Hbit. apply orb_true_r.
Qed.

Lemma SerialInit_sets_format_bits_witness :
  exists s',
    SerialInit 10416 (Some "7O2"%string) 1 (sample [true; true] [] []) =
      Done SERIAL_OK s' /\
    (Z.testbit (format_bits "7" "O" "2") 9 = true ->
     Z.testbit (c_cflag (drv s')) 9 = true) /\
    (1 <> 0 -> Z.testbit CRTSCTS 9 = true ->
     Z.testbit (c_cflag (drv s')) 9 = true).
Proof.
  eexists. split; [vm_compute; reflexivity|].
  eapply (SerialInit_sets_format_bits 10416 1 "7" "O" "2"
            (sample [true; true] [] []) _ 9).
  vm_compute. reflexivity.
Defined.

Lemma named_baud_code (baud code : Z) :
  named_baud baud = Some code -> Z.land code CBAUD = code.
Proof.
  unfold named_baud.
  repeat match goal with
         | |- context [baud =? ?k] =>
             destruct (baud =? k); [intros [= <-]; reflexivity|]
         end.
  discriminate.
Qed.

(** X19.  The baud field of the configuration a successful [SerialInit]
    hands over.  For a rate without a [case] the field is cleared and set
    to BOTHER and the two speed fields carry the rate.  For one of the
    eight named rates the code is or-ed onto whatever the field held
    before, and the speed fields are 0: the field is the code itself only
    if it was empty. *)
Theorem SerialInit_baud_field (baud rtscts : Z) (format : option string)
    (s s' : state) :
  SerialInit baud format rtscts s = Done SERIAL_OK s' ->
  match named_baud baud with
  | Some code =>
      Z.land (c_cflag (drv s')) CBAUD =
        Z.lor (Z.land (c_cflag (settings s)) CBAUD) code /\
      c_ispeed (drv s') = 0 /\ c_ospeed (drv s') = 0
  | None =>
      Z.land (c_cflag (drv s')) CBAUD = BOTHER /\
      c_ispeed (drv s') = to_uint baud /\ c_ospeed (drv s') = to_uint baud
  end.
Proof.
  intros H. apply SerialInit_sent in H.
  destruct H as (d & p & t & _ & _ & _ & _ & Hsp & Hcf & Hos).
  cbv zeta in Hcf, Hos. rewrite Hsp, Hos, Hcf, baudrate_named.
  assert (Hrts : forall x,
            Z.land (if rtscts =? 0 then x else Z.lor x CRTSCTS) CBAUD =
            Z.land x CBAUD).
  { intros x. destruct (rtscts =? 0); [reflexivity|].
    rewrite Z.land_lor_distr_l.
    change (Z.land CRTSCTS CBAUD) with 0. apply Z.lor_0_r. }
  rewrite Hrts.
  destruct (named_baud baud) as [code|] eqn:Hnamed; cbn [fst snd].
  - rewrite !Z.land_lor_distr_l, format_bits_land_CBAUD, Z.lor_0_r,
      (named_baud_code baud code Hnamed).
    repeat split.
  - rewrite Z.land_lor_distr_l, Z.land_ldiff.
    change (Z.land BOTHER CBAUD) with BOTHER. repeat split.
Qed.

Lemma SerialInit_baud_field_witness :
  exists s',
    SerialInit 9600 (Some "8N1"%string) 0
      (with_settings (Termios2 0 0 B38400 0 0 (replicate NCCS 0) 0 0)
         (sample [true; true] [] [])) = Done SERIAL_OK s' /\
    match named_baud 9600 with
    | Some code =>
        Z.land (c_cflag (drv s')) CBAUD =
          Z.lor (Z.land
                   (c_cflag (settings
                      (with_settings (Termios2 0 0 B38400 0 0 (replicate NCCS 0) 0 0)
                         (sample [true; true] [] [])))) CBAUD) code /\
        c_ispeed (drv s') = 0 /\ c_ospeed (drv s') = 0
    | None =>
        Z.land (c_cflag (drv s')) CBAUD = BOTHER /\
        c_ispeed (drv s') = to_uint 9600 /\ c_ospeed (drv s') = to_uint 9600
    end.
Proof.
  eexists. split; [vm_compute; reflexivity|].
  apply (SerialInit_baud_field 9600 0 (Some "8N1"%string)
           (with_settings (Termios2 0 0 B38400 0 0 (replicate NCCS 0) 0 0)
              (sample [true; true] [] []))).
  vm_compute. reflexivity.
Defined.

(** A port that ran at 38400 and is asked for 9600 keeps the code of
    38400, since 13 or-ed onto 15 is 15. *)
Example SerialInit_9600_after_38400 :
  exists s',
    SerialInit 9600 (Some "8N1"%string) 0
      (with_settings (Termios2 0 0 B38400 0 0 (replicate NCCS 0) 0 0)
         (sample [true; true] [] [])) = Done SERIAL_OK s' /\
    Z.land (c_cflag (drv s')) CBAUD = B38400.
Proof. eexists. split; [vm_compute; reflexivity | reflexivity]. Qed.

(** On an open port and a supported format, [SerialInit] is the three
    driver calls run on the requested configuration. *)
Lemma SerialInit_open_supported (baud rtscts : Z) (format : option string)
    (s : state) :
  supported_format format = true ->
  0 <= fd s ->
  exists t,
    SerialInit baud format rtscts s =
      (let! r := ioctl TCSETS2 in
       if negb (r =? 0) then ret SERIAL_ERR_INIT else
       let! r := ioctl TCGETS2 in
       if negb (r =? 0) then ret SERIAL_ERR_INIT else
       SerialFlush ;;;
       ret SERIAL_OK) (with_settings t s) /\
    c_iflag t = IGNPAR /\
    c_cc t = <[VTIME := 0]> (<[VMIN := 0]> (c_cc (settings s))).
Proof.
  intros Hfmt Hfd.
  destruct format as [[|d [|p [|t [|x f]]]]|]; try discriminate.
  cbn in Hfmt.
  apply andb_prop in Hfmt. destruct Hfmt as [Hfmt Ht].
  apply andb_prop in Hfmt. destruct Hfmt as [Hd Hp].
  unfold SerialInit. open_guard.
  cbn [String.length Nat.eqb negb char_at String.get].
  set (cf0 := Z.lor (c_cflag (settings s)) (Z.lor CLOCAL CREAD)).
  pose proof (datasize_spec d cf0) as H1. rewrite Hd in H1.
  destruct H1 as [cf1 ->].
  pose proof (parity_spec p cf1) as H2. rewrite Hp in H2.
  destruct H2 as [cf2 ->].
  pose proof (stopbit_spec t cf2) as H3. rewrite Ht in H3.
  destruct H3 as [cf3 ->].
  destruct (baudrate baud cf3 0) as [cf4 speed].
  eexists. split; [reflexivity|]. split; reflexivity.
Qed.

(** X20.  How [SerialInit] ends when the format is supported and the port
    open.  If the driver refuses the new configuration the call returns
    SERIAL_ERR_INIT, the driver keeps its configuration and is asked
    nothing more.  If the driver takes it but the read-back fails, the
    call returns SERIAL_ERR_INIT although the driver now runs the new
    configuration.  Only when both succeed does it flush the line, once,
    and return SERIAL_OK. *)
Theorem SerialInit_driver_answers (baud rtscts : Z) (format : option string)
    (s : state) (a b : bool) (ios : list bool) :
  supported_format format = true ->
  0 <= fd s ->
  io_script s = a :: b :: ios ->
  exists s',
    SerialInit baud format rtscts s =
      Done (if a && b then SERIAL_OK else SERIAL_ERR_INIT) s' /\
    flushes s' = (if a && b then S (flushes s) else flushes s) /\
    (a = false -> drv s' = drv s /\ io_script s' = b :: ios) /\
    (a = true ->
     c_iflag (drv s') = IGNPAR /\
     c_cc (drv s') = <[VTIME := 0]> (<[VMIN := 0]> (c_cc (settings s))) /\
     settings s' = drv s' /\ io_script s' = ios).
Proof.
  intros Hfmt Hfd Hio.
  destruct (SerialInit_open_supported baud rtscts format s Hfmt Hfd)
    as (t & -> & Hif & Hcc).
  assert (Hlt : (fd s <? 0) = false) by (apply Z.ltb_ge; lia).
  unfold bind, ioctl, SerialFlush, tcflush, ret.
  cbn [fd with_settings io_script with_io_script with_drv]. rewrite Hlt, Hio.
  destruct a.
  - cbn [Z.eqb negb fd with_settings io_script with_io_script with_drv].
    rewrite Hlt.
    destruct b; cbn [Z.eqb negb fd with_settings io_script with_io_script with_drv
                       andb].
    + rewrite Hlt. eexists. split; [reflexivity|]. cbn.
      split; [reflexivity|]. split; [discriminate|].
      repeat split; assumption.
    + eexists. split; [reflexivity|]. cbn.
      split; [reflexivity|]. split; [discriminate|].
      repeat split; assumption.
  - cbn [Z.eqb negb andb]. eexists. split; [reflexivity|]. cbn.
    split; [reflexivity|]. split; [intros _; split; reflexivity|].
    discriminate.
Qed.

Lemma SerialInit_driver_answers_witness :
  exists s',
    SerialInit 10416 (Some "8N1"%string) 0 (sample [true; false] [] []) =
      Done (if true && false then SERIAL_OK else SERIAL_ERR_INIT) s' /\
    flushes s' = (if true && false then S (flushes (sample [true; false] [] []))
                  else flushes (sample [true; false] [] [])) /\
    (true = false ->
     drv s' = drv (sample [true; false] [] []) /\ io_script s' = [false]) /\
    (true = true ->
     c_iflag (drv s') = IGNPAR /\
     c_cc (drv s') =
       <[VTIME := 0]> (<[VMIN := 0]> (c_cc (settings (sample [true; false] [] [])))) /\
     settings s' = drv s' /\ io_script s' = []).
Proof.
  apply (SerialInit_driver_answers 10416 0 (Some "8N1"%string)
           (sample [true; false] [] []) true false []).
  - reflexivity.
  - simpl. lia.
  - reflexivity.
Defined.

(** X21.  [SerialInit] after [SerialOpen] builds on the configuration the
    driver held when the port was opened, not on what [settings] held
    before: with a supported format and a driver that accepts the three
    requests both calls return SERIAL_OK, every flag of the driver outside
    the baud field is still set, VMIN and VTIME are 0, and the line has
    been flushed once. *)
Theorem SerialOpen_then_SerialInit (opened baud rtscts : Z)
    (format : option string) (s : state) (ios : list bool) :
  0 <= opened ->
  supported_format format = true ->
  io_script s = true :: true :: true :: ios ->
  exists s1 s',
    SerialOpen opened s = Done SERIAL_OK s1 /\
    SerialInit baud format rtscts s1 = Done SERIAL_OK s' /\
    fd s' = opened /\
    (forall i, Z.testbit (c_cflag (drv s)) i = true ->
               Z.testbit CBAUD i = false ->
               Z.testbit (c_cflag (drv s')) i = true) /\
    c_cc (drv s') = <[VTIME := 0]> (<[VMIN := 0]> (c_cc (drv s))) /\
    flushes s' = S (flushes s) /\
    io_script s' = ios.
Proof.
  intros Hpos Hfmt Hio.
  assert (Hopen : SerialOpen opened s =
                  Done SERIAL_OK
                    (with_io_script (true :: true :: ios)
                       (with_settings (drv s) (with_fd opened s)))).
  { unfold SerialOpen, bind, ioctl, ret. cbn [fd with_fd io_script].
    destruct (Z.ltb_spec opened 0) as [|_]; [lia|]. rewrite Hio. reflexivity. }
  remember (with_io_script (true :: true :: ios)
              (with_settings (drv s) (with_fd opened s))) as s1 eqn:Hs1.
  assert (Hfd1 : 0 <= fd s1) by (rewrite Hs1; exact Hpos).
  assert (Hset1 : settings s1 = drv s) by (rewrite Hs1; reflexivity).
  destruct (SerialInit_open_supported baud rtscts format s1 Hfmt Hfd1)
    as (t & Hrun & _ & Hcc).
  assert (Hlt : (opened <? 0) = false) by (apply Z.ltb_ge; lia).
  assert (Hinit : exists s',
            SerialInit baud format rtscts s1 = Done SERIAL_OK s' /\
            fd s' = opened /\ drv s' = t /\
            flushes s' = S (flushes s) /\ io_script s' = ios).
  { rewrite Hrun, Hs1. unfold bind, ioctl, SerialFlush, tcflush, ret.
    cbn [fd with_settings io_script with_io_script with_drv with_fd].
    rewrite Hlt.
    cbn [Z.eqb negb fd with_settings io_script with_io_script with_drv with_fd].
    rewrite Hlt.
    cbn [Z.eqb negb fd with_settings io_script with_io_script with_drv with_fd].
    rewrite Hlt. eexists. split; [reflexivity|]. cbn. repeat split. }
  destruct Hinit as (s' & Hinit & Hfd' & Hdrv & Hfl & Hios).
  exists s1, s'. split; [exact Hopen|]. split; [exact Hinit|].
  split; [exact Hfd'|]. split.
  - intros i Hbit Hout.
    pose proof (SerialInit_sent _ _ _ _ _ Hinit)
      as (d & p & c & _ & _ & _ & _ & _ & Hcf & _).
    cbv zeta in Hcf. rewrite Hcf. apply cflag_keeps; [|exact Hout].
    rewrite Z.lor_spec, Hset1, Hbit. reflexivity.
  - rewrite Hdrv, Hcc, Hset1. repeat split; assumption.
Qed.

Lemma SerialOpen_then_SerialInit_witness :
  exists s1 s',
    SerialOpen 3 (unopened (sample [true; true; true] [] [])) = Done SERIAL_OK s1 /\
    SerialInit 10416 (Some "8N1"%string) 0 s1 = Done SERIAL_OK s' /\
    fd s' = 3 /\
    (forall i,
       Z.testbit (c_cflag (drv (unopened (sample [true; true; true] [] [])))) i = true ->
       Z.testbit CBAUD i = false ->
       Z.testbit (c_cflag (drv s')) i = true) /\
    c_cc (drv s') =
      <[VTIME := 0]> (<[VMIN := 0]>
         (c_cc (drv (unopened (sample [true; true; true] [] []))))) /\
    flushes s' = S (flushes (unopened (sample [true; true; true] [] []))) /\
    io_script s' = [].
Proof.
  apply (SerialOpen_then_SerialInit 3 10416 0 (Some "8N1"%string)
           (unopened (sample [true; true; true] [] [])) []).
  - lia.
  - reflexivity.
  - reflexivity.
Defined.
